(** * istSOS observation retrieval: virtual procedures, rating curves,
      profile composition and temporal aggregation

    Shallow embedding of [istsoslib/responders/GOresponse.py]:
    - [VirtualProcess.applyFunction]          (module [Aggregator])
    - [VirtualProcess.setSampligTime]         (module [SamplingTime])
    - [VirtualProcess.addProcedure] and the class attribute [procedures]
                                              (module [Procedures])
    - [VirtualProcessHQ.setDischargeCurves] and [VirtualProcessHQ.execute]
                                              (module [HQ])
    - [VirtualProcessProfile.execute]         (module [Profile])

    Conventions.  Instants ([datetime]) are integers of [Z] (a count of
    time units since an epoch), a fixed [timedelta] is a [Z] as well; the
    integers are unbounded, so the embedding stands for the code as long
    as the instants that are computed stay in the range of [datetime].
    Python floats are represented by the rationals of [Q]: comparisons,
    sums, minima and maxima are those of the exact values.  Texts are
    ASCII texts.  A Python exception is an explicit [Raise] in the result
    type. *)

From Stdlib Require Import ZArith QArith Qround Qabs List String Ascii Bool Lia.
From Stdlib Require Import Sorting.Sorted Permutation.
Import ListNotations.

Local Open Scope string_scope.
Local Open Scope list_scope.
Local Open Scope Z_scope.

(** ** Cells of a text file *)

(** A cell of a line of a text file (a line split at the pipe sign), by
    what its text parses to: an instant for [iso.parse_datetime], a number
    for [float], or neither. *)
Inductive cell : Type :=
| CTime (t : Z)
| CNum (q : Q)
| CText (s : string).

(** ** Exceptions and results *)

(** A value that the [%] operator puts into a message. *)
Inductive arg : Type :=
| AText (s : string)
| ACells (l : list cell).

(** [PyExceptionFmt fmt args e] is [Exception(fmt % (args..., e))]: the
    exception whose message is the text [fmt] with its [%s] replaced, in
    order, by the texts of [args] and then by the text of the exception
    [e] that was caught. *)
Inductive exn : Type :=
| IndexError
| TypeError
| ValueError
| ZeroDivisionError
| OverflowError
| SOSException (code locator msg : string)
| PyException (msg : string)
| PyExceptionFmt (fmt : string) (args : list arg) (cause : exn).

Inductive result (A : Type) : Type :=
| Ok (a : A)
| Raise (e : exn).

Arguments Ok {A} a.
Arguments Raise {A} e.

Definition bind {A B : Type} (m : result A) (k : A -> result B) : result B :=
  match m with
  | Ok a => k a
  | Raise e => Raise e
  end.

Notation "x <- m ;; k" := (bind m (fun x => k))
  (at level 61, m at next level, right associativity).

(** [l[i]] for a non-negative index. *)
Definition index {A : Type} (l : list A) (i : nat) : result A :=
  match nth_error l i with
  | Some a => Ok a
  | None => Raise IndexError
  end.

(** ** Python values that end up in an output record *)

Inductive pyval : Type :=
| PFloat (q : Q)
| PInt (z : Z)
| PStr (s : string)
| PFormat4 (q : Q)   (* the text ["%.4f" % q] *)
| PNone.

(** ** Strings: [str.upper] and [str.split(":")[-1]] *)

(** [str.upper] on an ASCII text: the letters [a] to [z] become [A] to
    [Z], every other character is kept. *)

Definition upper_ascii (c : ascii) : ascii :=
  let n := nat_of_ascii c in
  if (Nat.leb 97 n && Nat.leb n 122)%bool then ascii_of_nat (n - 32) else c.

Fixpoint upper (s : string) : string :=
  match s with
  | EmptyString => EmptyString
  | String c s' => String (upper_ascii c) (upper s')
  end.

Fixpoint split_on (sep : ascii) (s : string) : list string :=
  match s with
  | EmptyString => [EmptyString]
  | String c s' =>
      if Ascii.eqb c sep then EmptyString :: split_on sep s'
      else match split_on sep s' with
           | [] => [String c EmptyString]
           | h :: t => String c h :: t
           end
  end.

(** [s.split(":")[-1]] *)
Definition last_segment (s : string) : string :=
  last (split_on ":"%char s) EmptyString.

(** ** Float helpers on the rational stand-in *)

(** [int(x)]: truncation toward zero. *)
Definition Qtrunc (q : Q) : Z :=
  if Qle_bool 0 q then Qfloor q else Qceiling q.

(** [min(l)] and [max(l)] on a non-empty list: the first extremal element. *)
Fixpoint py_min_from (m : Q) (l : list Q) : Q :=
  match l with
  | [] => m
  | x :: l' => py_min_from (if Qle_bool m x then m else x) l'
  end.

Fixpoint py_max_from (m : Q) (l : list Q) : Q :=
  match l with
  | [] => m
  | x :: l' => py_max_from (if Qle_bool x m then m else x) l'
  end.

Definition py_min (l : list Q) : result Q :=
  match l with
  | [] => Raise ValueError
  | x :: l' => Ok (py_min_from x l')
  end.

Definition py_max (l : list Q) : result Q :=
  match l with
  | [] => Raise ValueError
  | x :: l' => Ok (py_max_from x l')
  end.

Definition py_sum (l : list Q) : Q := fold_left Qplus l (0%Q).

(** [round(x, n)] with [scale = 10^n]: the nearest multiple of [1/scale]
    of the exact value, ties to the even one ([round] itself starts from
    the binary float, which can stand on either side of a tie of the
    decimal text). *)
Definition round_to (scale : Z) (q : Q) : Q :=
  let x := (q * inject_Z scale)%Q in
  let f := Qfloor x in
  let frac := (x - inject_Z f)%Q in
  let up :=
    match Qcompare frac (1 # 2) with
    | Lt => false
    | Gt => true
    | Eq => Z.odd f
    end in
  (inject_Z (if up then f + 1 else f) / inject_Z scale)%Q.

Definition round4 : Q -> Q := round_to 10000.
Definition round1 : Q -> Q := round_to 10.

Definition Qlt_bool (a b : Q) : bool := negb (Qle_bool b a).

(** [", ".join(l)] *)
Fixpoint join (sep : string) (l : list string) : string :=
  match l with
  | [] => EmptyString
  | [x] => x
  | x :: l' => x ++ sep ++ join sep l'
  end.

Module Aggregator.

(** A row of [observation.data]: [row[0]] is the instant, [row[c+1]] the
    cell of column [c].  A cell is [Some q] for a number, [float(cell)]
    being [q], and [None] for the value [None] (SQL NULL), which [float]
    rejects with a [TypeError]. *)
Record row : Type := mkRow {
  r_time : Z;
  r_cells : list (option Q)
}.

Definition to_float (c : option Q) : result Q :=
  match c with
  | Some q => Ok q
  | None => Raise TypeError
  end.

(** [for c in range(fields): result[dt2][c].append(float(tmp[c+1]))]
    The bucket holds one list per column; the loop walks the columns and
    the cells after the timestamp side by side. *)
Fixpoint append_sample (cells : list (option Q)) (cols : list (list Q))
  {struct cols} : result (list (list Q)) :=
  match cols with
  | [] => Ok []
  | col :: cols' =>
      match cells with
      | [] => Raise IndexError
      | c :: cells' =>
          q <- to_float c ;;
          rest <- append_sample cells' cols' ;;
          Ok ((col ++ [q]) :: rest)
      end
  end.

(** [list.pop(0)] on [self.observation.data]. *)
Definition pop0 {A : Type} (l : list A) : result (list A) :=
  match l with
  | [] => Raise IndexError
  | _ :: l' => Ok l'
  end.

(** The inner [while len(data) > 0] loop, lines 337-348.  [data] is the
    shallow copy being consumed, [obs] is [self.observation.data], [cols]
    is [result[dt2]].  Both lists are popped at index [d = 0]. *)
Fixpoint scan (dt dt2 : Z) (data obs : list row) (cols : list (list Q))
  : result (list row * list (list Q)) :=
  match data with
  | [] => Ok (obs, cols)
  | tmp :: data' =>
      if (dt <? r_time tmp) && (r_time tmp <=? dt2) then
        obs' <- pop0 obs ;;
        cols' <- append_sample (r_cells tmp) cols ;;
        scan dt dt2 data' obs' cols'
      else if dt >? r_time tmp then
        obs' <- pop0 obs ;;
        scan dt dt2 data' obs' cols
      else if dt2 <? r_time tmp then
        Ok (obs, cols)
      else
        scan dt dt2 data' obs cols
  end.

(** The dictionary [result], keyed by the upper edge of a bucket, in
    insertion order. *)
Definition buckets : Type := list (Z * list (list Q)).

Fixpoint dict_set (k : Z) (v : list (list Q)) (d : buckets) : buckets :=
  match d with
  | [] => [(k, v)]
  | (k', v') :: d' =>
      if k' =? k then (k, v) :: d' else (k', v') :: dict_set k v d'
  end.

Fixpoint dict_get (k : Z) (d : buckets) : result (list (list Q)) :=
  match d with
  | [] => Raise (PyException "KeyError")
  | (k', v) :: d' => if k' =? k then Ok v else dict_get k d'
  end.

(** The outer [while dt < end] loop, lines 329-350.  The loop does not
    terminate when the duration is zero: [None] is fuel exhausted. *)
Fixpoint bucketing (fuel : nat) (dt end_ duration : Z) (fields : nat)
  (obs : list row) (res : buckets) : option (result (buckets * list row)) :=
  match fuel with
  | O => None
  | S fuel' =>
      if dt <? end_ then
        let dt2 := dt + duration in
        match scan dt dt2 obs obs (repeat [] fields) with
        | Raise e => Some (Raise e)
        | Ok (obs', cols) =>
            bucketing fuel' dt2 end_ duration fields obs' (dict_set dt2 cols res)
        end
      else Some (Ok (res, obs))
  end.

(** [sorted(result)]: the keys in ascending order. *)
Fixpoint insert_key (k : Z) (l : list Z) : list Z :=
  match l with
  | [] => [k]
  | x :: l' => if k <=? x then k :: l else x :: insert_key k l'
  end.

Fixpoint sorted_keys (l : list Z) : list Z :=
  match l with
  | [] => []
  | x :: l' => insert_key x (sorted_keys l')
  end.

(** The request parameters read from [self.filter]. *)
Record aggregate : Type := mkAggregate {
  aggregate_function : string;
  aggregate_nodata : pyval;
  aggregate_nodata_qi : pyval
}.

Definition is_quality_index (name : string) : bool :=
  String.eqb (last_segment name) "qualityIndex".

(** The body of [for v in range(len(result[r]))], lines 357-384, for one
    column: [name] is [observedProperty[v]], [col] is [result[r][v]]. *)
Definition reduce_column (f : aggregate) (name : string) (col : list Q)
  : result pyval :=
  if is_quality_index name then
    match col with
    | [] => Ok (aggregate_nodata_qi f)
    | _ => m <- py_min col ;; Ok (PInt (Qtrunc m))
    end
  else
    match col with
    | [] => Ok (aggregate_nodata f)
    | _ =>
        let fn := upper (aggregate_function f) in
        if String.eqb fn "SUM" then Ok (PFloat (py_sum col))
        else if String.eqb fn "MAX" then m <- py_max col ;; Ok (PFloat m)
        else if String.eqb fn "MIN" then m <- py_min col ;; Ok (PFloat m)
        else if String.eqb fn "AVG" then
          Ok (PFloat (round4 (py_sum col / inject_Z (Z.of_nat (List.length col)))%Q))
        else if String.eqb fn "COUNT" then
          Ok (PInt (Z.of_nat (List.length col)))
        else Ok PNone
    end.

Fixpoint reduce_columns (f : aggregate) (observedProperty : list string)
  (v : nat) (cols : list (list Q)) : result (list pyval) :=
  match cols with
  | [] => Ok []
  | col :: cols' =>
      name <- index observedProperty v ;;
      x <- reduce_column f name col ;;
      rest <- reduce_columns f observedProperty (S v) cols' ;;
      Ok (x :: rest)
  end.

(** [for r in sorted(result)], lines 354-386. *)
Fixpoint reduce_records (f : aggregate) (observedProperty : list string)
  (res : buckets) (keys : list Z) : result (list (Z * list pyval)) :=
  match keys with
  | [] => Ok []
  | r :: keys' =>
      cols <- dict_get r res ;;
      record <- reduce_columns f observedProperty 0 cols ;;
      rest <- reduce_records f observedProperty res keys' ;;
      Ok ((r, record) :: rest)
  end.

(** Lines 390-391: any exception is raised again, its text after the one
    of the method. *)
Definition wrap {A : Type} (r : result A) : result A :=
  match r with
  | Ok a => Ok a
  | Raise e =>
      Raise (PyExceptionFmt
               "Error while applying aggregate function on virtual procedures: %s"
               [] e)
  end.

(** [applyFunction]: [begin_], [end_] and [duration] are the parsed
    [eventTime[0]] and [aggregate_interval]; [data] is
    [self.observation.data]; the result is its new value. *)
Definition applyFunction (fuel : nat) (f : aggregate) (begin_ end_ duration : Z)
  (observedProperty : list string) (data : list row)
  : option (result (list (Z * list pyval))) :=
  let fields := List.length observedProperty in
  match bucketing fuel begin_ end_ duration fields data [] with
  | None => None
  | Some r =>
      Some (wrap (filled <- r ;;
                  reduce_records f observedProperty (fst filled)
                    (sorted_keys (map fst (fst filled)))))
  end.

End Aggregator.

Module SamplingTime.

(** A row of the table [procedures] joined with [obs_type]: [name_oty] is
    [None] when [id_oty_fk] is NULL; the two instants are nullable. *)
Record procedure : Type := mkProcedure {
  name_prc : string;
  name_oty : option string;
  stime_prc : option Z;
  etime_prc : option Z
}.

Definition catalog : Type := list procedure.

(** [SELECT name_oty FROM obs_type, procedures
     WHERE id_oty=id_oty_fk AND name_prc = p] *)
Definition select_type (db : catalog) (p : string) : list string :=
  flat_map
    (fun r =>
       if String.eqb (name_prc r) p then
         match name_oty r with Some t => [t] | None => [] end
       else [])
    db.

(** The count query of lines 173-177, [SELECT COUNT FROM procedures WHERE
    name_prc = p]: one row with one cell. *)
Definition select_count (db : catalog) (p : string) : list (list Z) :=
  [[Z.of_nat (List.length (filter (fun r => String.eqb (name_prc r) p) db))]].

(** [result[0] == 0] at line 178: [result[0]] is a row of the result set,
    as in [result = result[0]; result[0] == 'virtual'] at lines 145-147;
    a row is a sequence and is never equal to the integer [0]. *)
Definition row_eq_int (r : list Z) (n : Z) : bool := false.

Definition defined_and_named (names : list string) (r : procedure) : bool :=
  match stime_prc r, etime_prc r with
  | Some _, Some _ => existsb (String.eqb (name_prc r)) names
  | _, _ => false
  end.

Definition interval_of (r : procedure) : list (Z * Z) :=
  match stime_prc r, etime_prc r with
  | Some s, Some e => [(s, e)]
  | _, _ => []
  end.

(** The rows [(stime_prc, etime_prc)] kept by the WHERE clause. *)
Definition where_rows (db : catalog) (names : list string) : list (Z * Z) :=
  flat_map interval_of (filter (defined_and_named names) db).

Definition same_interval (a b : Z * Z) : bool :=
  (fst a =? fst b) && (snd a =? snd b).

(** [GROUP BY stime_prc, etime_prc]: one group per distinct pair, listed
    in the order of first occurrence (SQL leaves the order open). *)
Fixpoint group_keys (rows : list (Z * Z)) (seen : list (Z * Z)) : list (Z * Z) :=
  match rows with
  | [] => []
  | r :: rows' =>
      if existsb (same_interval r) seen then group_keys rows' seen
      else r :: group_keys rows' (r :: seen)
  end.

Definition z_min_list (x : Z) (l : list Z) : Z := fold_left Z.min l x.
Definition z_max_list (x : Z) (l : list Z) : Z := fold_left Z.max l x.

(** [SELECT min(stime_prc), max(etime_prc) ... GROUP BY stime_prc, etime_prc],
    lines 185-193: each group yields the minimum start and the maximum end
    of its own members. *)
Definition select_min_max (db : catalog) (names : list string)
  : list (option Z * option Z) :=
  let rows := where_rows db names in
  map
    (fun g =>
       let members := filter (same_interval g) rows in
       (Some (z_min_list (fst g) (map fst members)),
        Some (z_max_list (snd g) (map snd members))))
    (group_keys rows []).

(** [SELECT stime_prc, etime_prc ... AND name_prc = p], lines 197-203. *)
Definition select_interval (db : catalog) (p : string)
  : list (option Z * option Z) :=
  map (fun r => (Some (fst r), Some (snd r))) (where_rows db [p]).

Definition not_found (p : string) : string :=
  "Virtual Procedure Error: procedure " ++ p ++ " not found in the database".

(** The loop [for p in tmp], lines 128-166.  [tmp] grows while it is
    walked, so the walk is by position [i]; [plugins p] is [None] when
    the file of the virtual procedure [p] does not exist and otherwise the
    keys of [istvp().procedures].  [None] is fuel exhausted (a cyclic
    declaration makes the loop run forever). *)
Fixpoint cascade (fuel : nat) (db : catalog)
  (plugins : string -> option (list string))
  (tmp : list string) (i : nat) (procedures : list string)
  : option (result (list string)) :=
  match fuel with
  | O => None
  | S fuel' =>
      match nth_error tmp i with
      | None => Some (Ok procedures)
      | Some p =>
          match select_type db p with
          | [] =>
              Some (Raise (SOSException "InvalidParameterValue" "procedure"
                             (not_found p)))
          | oty :: _ =>
              if String.eqb oty "virtual" then
                match plugins p with
                | Some deps =>
                    if (0 <? List.length deps)%nat
                    then cascade fuel' db plugins (tmp ++ deps) (S i) procedures
                    else cascade fuel' db plugins tmp (S i) procedures
                | None => cascade fuel' db plugins tmp (S i) procedures
                end
              else cascade fuel' db plugins tmp (S i) (procedures ++ [p])
          end
      end
  end.

(** [list(set(procedures))]: duplicates removed; the order of a set of
    strings is not fixed by Python, the first occurrences are kept here. *)
Fixpoint remove_duplicates (l : list string) (seen : list string) : list string :=
  match l with
  | [] => []
  | x :: l' =>
      if existsb (String.eqb x) seen then remove_duplicates l' seen
      else x :: remove_duplicates l' (x :: seen)
  end.

(** Lines 171-179: the procedures whose count row equals [0]. *)
Definition procedures_not_found (db : catalog) (procedures : list string)
  : result (list string) :=
  fold_left
    (fun acc procedure =>
       pnf <- acc ;;
       row <- index (select_count db procedure) 0 ;;
       Ok (if row_eq_int row 0 then pnf ++ [procedure] else pnf))
    procedures (Ok []).

(** [setSampligTime], lines 116-217, for [self.offering = None];
    [declared] is [self.procedures] (its keys, in insertion order, when it
    is a dictionary).  The result is the new [self.samplingTime]. *)
Definition setSampligTime (fuel : nat) (db : catalog)
  (plugins : string -> option (list string)) (declared : list string)
  : option (result (option Z * option Z)) :=
  if (List.length declared =? 0)%nat then Some (Ok (None, None))
  else
    match cascade fuel db plugins declared 0 [] with
    | None => None
    | Some (Raise e) => Some (Raise e)
    | Some (Ok leaves) =>
        let procedures := remove_duplicates leaves [] in
        Some
          (pnf <- procedures_not_found db procedures ;;
           if (0 <? List.length pnf)%nat then
             Raise (PyException (not_found (join ", " pnf)))
           else
             rows <-
               (if (1 <? List.length procedures)%nat then
                  Ok (select_min_max db procedures)
                else
                  p <- index procedures 0 ;;
                  Ok (select_interval db p)) ;;
             match rows with
             | [] => Ok (None, None)
             | r :: _ => Ok (fst r, snd r)
             end)
    end.

End SamplingTime.

Module Procedures.

(** A dependency map: procedure name to observed properties, in insertion
    order. *)
Definition dict : Type := list (string * list string).

Fixpoint dict_set (name : string) (observedProperty : list string) (d : dict) : dict :=
  match d with
  | [] => [(name, observedProperty)]
  | (k, v) :: d' =>
      if String.eqb k name then (name, observedProperty) :: d'
      else (k, v) :: dict_set name observedProperty d'
  end.

(** The objects a request can see: the dictionary bound to the class
    attribute [VirtualProcess.procedures] (line 60), and for each instance
    the dictionary bound to its own attribute [procedures], if it has one.
    The class has no constructor: a new instance has no attribute of its
    own. *)
Record store : Type := mkStore {
  class_procedures : dict;
  instances : list (option dict)
}.

(** The state after the class body has run. *)
Definition initial : store := mkStore [] [].

(** [istvp()]: the new instance and the store that holds it. *)
Definition construct (st : store) : nat * store :=
  (List.length (instances st),
   mkStore (class_procedures st) (instances st ++ [None])).

Definition own (st : store) (self : nat) : option dict :=
  match nth_error (instances st) self with
  | Some o => o
  | None => None
  end.

(** [self.procedures]: the attribute of the instance, else of the class. *)
Definition procedures (st : store) (self : nat) : dict :=
  match own st self with
  | Some d => d
  | None => class_procedures st
  end.

Fixpoint set_nth {A : Type} (l : list A) (i : nat) (a : A) : list A :=
  match l, i with
  | [], _ => []
  | _ :: l', O => a :: l'
  | x :: l', S i' => x :: set_nth l' i' a
  end.

(** [addProcedure], line 80: [self.procedures[name] = observedProperty]
    stores into the dictionary that [self.procedures] evaluates to. *)
Definition addProcedure (st : store) (self : nat) (name : string)
  (observedProperty : list string) : store :=
  match own st self with
  | Some d =>
      mkStore (class_procedures st)
        (set_nth (instances st) self (Some (dict_set name observedProperty d)))
  | None =>
      mkStore (dict_set name observedProperty (class_procedures st))
        (instances st)
  end.

(** [self.procedures = {}], lines 243, 419 and 459: binds the attribute on
    the instance. *)
Definition rebind (st : store) (self : nat) : store :=
  mkStore (class_procedures st) (set_nth (instances st) self (Some [])).

End Procedures.

Module HQ.

Definition parse_datetime (c : cell) : result Z :=
  match c with
  | CTime t => Ok t
  | _ => Raise ValueError
  end.

Definition float (c : cell) : result Q :=
  match c with
  | CNum q => Ok q
  | _ => Raise ValueError
  end.

(** [self.hqCurves]: a dictionary of eight lists extended side by side. *)
Record hqCurves : Type := mkCurves {
  hq_from : list Z;
  hq_to : list Z;
  hq_low : list Q;
  hq_up : list Q;
  hq_A : list Q;
  hq_B : list Q;
  hq_C : list Q;
  hq_K : list Q
}.

Definition no_curves : hqCurves := mkCurves [] [] [] [] [] [] [] [].

(** [head.index(name)] *)
Fixpoint head_index (name : string) (head : list cell) : result nat :=
  match head with
  | [] => Raise ValueError
  | c :: head' =>
      let found := match c with CText s => String.eqb s name | _ => false end in
      if found then Ok O else i <- head_index name head' ;; Ok (S i)
  end.

Record positions : Type := mkPositions {
  fromt : nat; tot : nat; low : nat; up : nat;
  posA : nat; posB : nat; posC : nat; posK : nat
}.

(** The format of the message of line 572. *)
Definition header_error : string :=
  "setDischargeCurves: FILE %s ,%s error in header." ++ String "010" " %s".

(** Lines 561-572: any failure is raised again as a header error that
    names the file, the header and the failure. *)
Definition header_positions (hqFile : string) (head : list cell)
  : result positions :=
  match
    (f <- head_index "from" head ;;
     t <- head_index "to" head ;;
     l <- head_index "low_val" head ;;
     u <- head_index "up_val" head ;;
     a <- head_index "A" head ;;
     b <- head_index "B" head ;;
     c <- head_index "C" head ;;
     k <- head_index "K" head ;;
     Ok (mkPositions f t l u a b c k))
  with
  | Ok p => Ok p
  | Raise e =>
      Raise (PyExceptionFmt header_error [AText hqFile; ACells head] e)
  end.

(** The eight appends of lines 579-586, one after the other. *)
Definition appends (p : positions)
  : list (list cell -> hqCurves -> result hqCurves) :=
  [ (fun line h => c <- index line (fromt p) ;; v <- parse_datetime c ;;
       Ok (mkCurves (hq_from h ++ [v]) (hq_to h) (hq_low h) (hq_up h)
             (hq_A h) (hq_B h) (hq_C h) (hq_K h)));
    (fun line h => c <- index line (tot p) ;; v <- parse_datetime c ;;
       Ok (mkCurves (hq_from h) (hq_to h ++ [v]) (hq_low h) (hq_up h)
             (hq_A h) (hq_B h) (hq_C h) (hq_K h)));
    (fun line h => c <- index line (low p) ;; v <- float c ;;
       Ok (mkCurves (hq_from h) (hq_to h) (hq_low h ++ [v]) (hq_up h)
             (hq_A h) (hq_B h) (hq_C h) (hq_K h)));
    (fun line h => c <- index line (up p) ;; v <- float c ;;
       Ok (mkCurves (hq_from h) (hq_to h) (hq_low h) (hq_up h ++ [v])
             (hq_A h) (hq_B h) (hq_C h) (hq_K h)));
    (fun line h => c <- index line (posA p) ;; v <- float c ;;
       Ok (mkCurves (hq_from h) (hq_to h) (hq_low h) (hq_up h)
             (hq_A h ++ [v]) (hq_B h) (hq_C h) (hq_K h)));
    (fun line h => c <- index line (posB p) ;; v <- float c ;;
       Ok (mkCurves (hq_from h) (hq_to h) (hq_low h) (hq_up h)
             (hq_A h) (hq_B h ++ [v]) (hq_C h) (hq_K h)));
    (fun line h => c <- index line (posC p) ;; v <- float c ;;
       Ok (mkCurves (hq_from h) (hq_to h) (hq_low h) (hq_up h)
             (hq_A h) (hq_B h) (hq_C h ++ [v]) (hq_K h)));
    (fun line h => c <- index line (posK p) ;; v <- float c ;;
       Ok (mkCurves (hq_from h) (hq_to h) (hq_low h) (hq_up h)
             (hq_A h) (hq_B h) (hq_C h) (hq_K h ++ [v]))) ].

(** Runs the appends in order; on an exception the lists keep what was
    appended before it. *)
Fixpoint run_appends (steps : list (list cell -> hqCurves -> result hqCurves))
  (line : list cell) (h : hqCurves) : hqCurves * option exn :=
  match steps with
  | [] => (h, None)
  | s :: steps' =>
      match s line h with
      | Ok h' => run_appends steps' line h'
      | Raise e => (h, Some e)
      end
  end.

(** Lines 532-549: the instants of the request, [eventTime] being [None]
    or a list of one- or two-element lists (already parsed). *)
Definition instants (eventTime : option (list (list Z))) : list (option Z) :=
  match eventTime with
  | None => [None; None]
  | Some ts =>
      flat_map
        (fun t =>
           match t with
           | [a; b] => [Some a; Some b]
           | [a] => [Some a]
           | _ => []
           end)
        ts
  end.

(** [min(tp)] and [max(tp)]: the builtin compares each further item with
    the current extremum, and ordering [None] is a [TypeError]. *)
Fixpoint min_from (m : option Z) (l : list (option Z)) : result (option Z) :=
  match l with
  | [] => Ok m
  | x :: l' =>
      match x, m with
      | Some a, Some b => min_from (if a <? b then x else m) l'
      | _, _ => Raise TypeError
      end
  end.

Fixpoint max_from (m : option Z) (l : list (option Z)) : result (option Z) :=
  match l with
  | [] => Ok m
  | x :: l' =>
      match x, m with
      | Some a, Some b => max_from (if a >? b then x else m) l'
      | _, _ => Raise TypeError
      end
  end.

Definition py_min_instants (l : list (option Z)) : result (option Z) :=
  match l with
  | [] => Raise ValueError
  | x :: l' => min_from x l'
  end.

Definition py_max_instants (l : list (option Z)) : result (option Z) :=
  match l with
  | [] => Raise ValueError
  | x :: l' => max_from x l'
  end.

(** The test of line 578, on the cells at the fixed positions 1 and 0:
    [parse(line[1]) > period[0] or parse(line[0]) <= period[1]]. *)
Definition line_selected (line : list cell) (p0 : Z) (p1 : option Z)
  : result bool :=
  c1 <- index line 1 ;;
  t1 <- parse_datetime c1 ;;
  if t1 >? p0 then Ok true
  else
    c0 <- index line 0 ;;
    t0 <- parse_datetime c0 ;;
    match p1 with
    | Some e => Ok (t0 <=? e)
    | None => Raise TypeError
    end.

(** Lines 576-586: [for l in range(1, len(lines))]. *)
Fixpoint load_window (p : positions) (p0 : Z) (p1 : option Z)
  (lines : list (list cell)) (h : hqCurves) : result hqCurves :=
  match lines with
  | [] => Ok h
  | line :: lines' =>
      sel <- line_selected line p0 p1 ;;
      if sel then
        match run_appends (appends p) line h with
        | (h', None) => load_window p p0 p1 lines' h'
        | (_, Some e) => Raise e
        end
      else load_window p p0 p1 lines' h
  end.

(** [lines[-k]] for [k >= 1]. *)
Definition from_end {A : Type} (l : list A) (k : nat) : result A :=
  if (k <=? List.length l)%nat then index l (List.length l - k)
  else Raise IndexError.

(** Lines 589-602: [for l in [-1,-2]] with every exception swallowed. *)
Fixpoint load_last (p : positions) (ks : list nat) (lines : list (list cell))
  (h : hqCurves) : hqCurves :=
  match ks with
  | [] => h
  | k :: ks' =>
      match from_end lines k with
      | Ok line => load_last p ks' lines (fst (run_appends (appends p) line h))
      | Raise _ => load_last p ks' lines h
      end
  end.

(** [setDischargeCurves]: [hqFile] is the path of the rating-curve file
    (lines 526-530), [file] is [None] when the file cannot be opened and
    otherwise its lines, the header first. *)
Definition setDischargeCurves (hqFile : string)
  (eventTime : option (list (list Z)))
  (file : option (list (list cell))) : result hqCurves :=
  let tp := instants eventTime in
  p0 <- py_min_instants tp ;;
  p1 <- py_max_instants tp ;;
  match file with
  | None =>
      Raise (PyException
               ("Unable to open hq rating curve file at: " ++ hqFile))
  | Some lines =>
      head <- index lines 0 ;;
      p <- header_positions hqFile head ;;
      match p0 with
      | Some b => load_window p b p1 (tl lines) no_curves
      | None => Ok (load_last p [1%nat; 2%nat] lines no_curves)
      end
  end.

(** A row returned by [getData]: [rec[0]], [rec[1]] ([None] for a missing
    value) and, under quality reporting, [rec[2]]. *)
Record sample : Type := mkSample {
  s_time : Z;
  s_val : option Q;
  s_qi : pyval
}.

Definition out_row : Type := (Z * list pyval)%type.

(** The float [-999.9]. *)
Definition nodata : pyval := PFloat (-9999 # 10).

(** The row appended under quality reporting, [[rec[0], v, q]], or without
    it, [[rec[0], v]]. *)
Definition emit (qi : bool) (t : Z) (v q : pyval) : out_row :=
  (t, if qi then [v; q] else [v]).

Section Transform.

(** [x ** y] on floats for a base [x] that is not negative: [fpow x y] is
    the value, or the exception that the operator raises for a result out
    of the range of floats ([OverflowError]). *)
Variable fpow : Q -> Q -> result Q.

(** [x ** y]: a base of zero with a negative exponent is a
    [ZeroDivisionError]. *)
Definition power (x y : Q) : result Q :=
  if Qeq_bool x 0 && Qlt_bool y 0 then Raise ZeroDivisionError
  else fpow x y.

(** The condition of lines 623 and 643, evaluated left to right. *)
Definition matches (h : hqCurves) (o : nat) (t : Z) (v : Q) : result bool :=
  f <- index (hq_from h) o ;;
  if f <? t then
    e <- index (hq_to h) o ;;
    if t <=? e then
      l <- index (hq_low h) o ;;
      if Qle_bool l v then
        u <- index (hq_up h) o ;;
        Ok (Qlt_bool v u)
      else Ok false
    else Ok false
  else Ok false.

(** [K[o] + A[o] * ((float(rec[1]) - B[o]) ** C[o])] *)
Definition curve_value (h : hqCurves) (o : nat) (v : Q) : result Q :=
  k <- index (hq_K h) o ;;
  a <- index (hq_A h) o ;;
  b <- index (hq_B h) o ;;
  c <- index (hq_C h) o ;;
  p <- power (v - b) c ;;
  Ok (k + a * p)%Q.

(** The loop [for o in range(len(self.hqCurves['from']))] of lines 618-633
    ([qi = true]) and 638-653 ([qi = false]); [os] is what is left of the
    range.  A [break] returns at once; the result is what the loop appends
    to [data_out] for this sample. *)
Fixpoint segments (qi : bool) (h : hqCurves) (rec : sample) (os : list nat)
  : result (list out_row) :=
  match os with
  | [] => Ok []
  | o :: os' =>
      match s_val rec with
      | None => Ok [emit qi (s_time rec) nodata (PInt 120)]
      | Some v =>
          m <- matches h o (s_time rec) v ;;
          if m then
            b <- index (hq_B h) o ;;
            if Qle_bool 0 (v - b) then
              y <- curve_value h o v ;;
              Ok [emit qi (s_time rec) (PFormat4 y) (s_qi rec)]
            else Ok [emit qi (s_time rec) nodata (PInt 120)]
          else
            rest <- segments qi h rec os' ;;
            if (o =? List.length (hq_from h) - 1)%nat
            then Ok (emit qi (s_time rec) nodata (PInt 120) :: rest)
            else Ok rest
      end
  end.

(** The body of [for rec in data], lines 614-633 and 638-653. *)
Definition rows_of_sample (qi : bool) (h : hqCurves) (rec : sample)
  : result (list out_row) :=
  let lookup := segments qi h rec (seq 0 (List.length (hq_from h))) in
  if qi then
    match s_val rec with
    | None => Ok [(s_time rec, [nodata; PInt 110])]
    | Some v =>
        if Qlt_bool v (-999 # 1) then Ok [(s_time rec, [nodata; PInt 110])]
        else lookup
    end
  else lookup.

(** Lines 611-655. *)
Fixpoint transform (qi : bool) (h : hqCurves) (data : list sample)
  : result (list out_row) :=
  match data with
  | [] => Ok []
  | rec :: data' =>
      rows <- rows_of_sample qi h rec ;;
      rest <- transform qi h data' ;;
      Ok (rows ++ rest)
  end.

(** [execute]: [data] is what [self.getData()] returns. *)
Definition execute (hqFile : string) (eventTime : option (list (list Z)))
  (file : option (list (list cell))) (qualityIndex : bool)
  (data : list sample) : result (list out_row) :=
  h <- setDischargeCurves hqFile eventTime file ;;
  transform qualityIndex h data.

End Transform.

End HQ.

(** ** Stable sorting, as [list.sort] does *)

Section StableSort.

Variable A : Type.
Variable leb : A -> A -> bool.

Fixpoint insert_sorted (x : A) (l : list A) : list A :=
  match l with
  | [] => [x]
  | y :: l' => if leb x y then x :: l else y :: insert_sorted x l'
  end.

(** Elements that compare equal keep their original order. *)
Fixpoint stable_sort (l : list A) : list A :=
  match l with
  | [] => []
  | x :: l' => insert_sorted x (stable_sort l')
  end.

End StableSort.

Arguments insert_sorted {A} leb x l.
Arguments stable_sort {A} leb l.

Module Profile.

(** A row of a member's series: [row[0]] and the numeric cells after it. *)
Record row : Type := mkRow {
  time : Z;
  cells : list Q
}.

(** An entry of [procs_info]: [proc[1]], [proc[2]], and the rows that
    [self.getData(proc[1])] returns for it. *)
Record member : Type := mkMember {
  m_name : string;
  m_z : Q;
  m_data : list row
}.

(** [round(abs(self.coords[2] - proc[2]), 1)] *)
Definition depth (coords_z : Q) (m : member) : Q :=
  round1 (Qabs (coords_z - m_z m)).

(** [map(add, data_temp, depths_list)], lines 493-505. *)
Definition with_depth (qi : bool) (d : Q) (r : row) : row :=
  mkRow (time r) (cells r ++ (if qi then [d; 100%Q] else [d])).

(** The loop over [procs_info], lines 480-506. *)
Definition gather (qi : bool) (coords_z : Q) (procs_info : list member)
  : list row :=
  flat_map (fun m => map (with_depth qi (depth coords_z m)) (m_data m))
    procs_info.

(** [row[i]] for [i >= 1], once the row is known to be wide enough. *)
Definition key (i : nat) (r : row) : Q := nth (i - 1) (cells r) 0%Q.

(** [data.sort(key=lambda row: row[0])] *)
Definition sort_by_time (data : list row) : list row :=
  stable_sort (fun a b => time a <=? time b) data.

(** [data.sort(key=lambda row: row[i], reverse=True)]: the keys are taken
    first (a short row is an [IndexError]); a reversed sort is stable as
    well. *)
Definition sort_by_column_desc (i : nat) (data : list row)
  : result (list row) :=
  if forallb (fun r => (i - 1 <? List.length (cells r))%nat) data then
    Ok (stable_sort (fun a b => Qle_bool (key i b) (key i a)) data)
  else Raise IndexError.

(** [execute], lines 478-518: [n_obs] is [len(self.obs)]. *)
Definition execute (qualityIndex : bool) (coords_z : Q) (n_obs : nat)
  (procs_info : list member) : result (list row) :=
  let data := sort_by_time (gather qualityIndex coords_z procs_info) in
  data <- sort_by_column_desc (if qualityIndex then 4 else 3) data ;;
  first <- index data 0 ;;
  if (n_obs =? List.length (cells first))%nat then Ok data
  else Raise (PyException "Number of observed properties mismatches").

End Profile.

Module GetData.
Import Procedures.

(** [self.procedures[procedure]] *)
Fixpoint lookup (name : string) (d : dict) : result (list string) :=
  match d with
  | [] => Raise (PyException "KeyError")
  | (k, v) :: d' => if String.eqb k name then Ok v else lookup name d'
  end.

Definition keys (d : dict) : list string := map fst d.

(** The first part of [getData], lines 264-277: the dependency whose
    series is fetched and the observed properties asked of it, that is
    [virtualFilter.procedure[0]] and [virtualFilter.observedProperty];
    [procedures] is the value of [self.procedures]. *)
Definition target (procedures : dict) (procedure : option string)
  : result (string * list string) :=
  name <-
    match procedure with
    | None =>
        if (List.length procedures =? 0)%nat then
          Raise (PyException "Virtual Procedure Error: no procedures added")
        else index (keys procedures) 0
    | Some p =>
        if existsb (String.eqb p) (keys procedures) then Ok p
        else
          Raise (PyException
                   ("Virtual Procedure Error: procedure " ++ p
                    ++ " has not been added to this virtual procedure")%string)
    end ;;
  observedProperty <- lookup name procedures ;;
  Ok (name, observedProperty).

End GetData.

Module Observation.

(** A row of the observed-property query of [setData], lines 928-937;
    [name_uom] is [None] when the row has no such key. *)
Record obspr_row : Type := mkObsPr {
  id_opr : Z;
  name_opr : string;
  def_opr : string;
  name_uom : option string
}.

(** The five lists that [setData] fills, lines 939-943; an identifier
    stands for its decimal text. *)
Record properties : Type := mkProperties {
  observedProperty : list string;
  observedPropertyId : list Z;
  observedPropertyName : list string;
  opr_urn : list string;
  uom : list string
}.

Definition no_properties : properties := mkProperties [] [] [] [] [].

(** The body of [for orRow in obspr_res], lines 946-962. *)
Definition add_property (qualityIndex : bool) (p : properties)
  (orRow : obspr_row) : properties :=
  let p1 :=
    mkProperties
      (observedProperty p ++ [def_opr orRow])
      (observedPropertyId p ++ [id_opr orRow])
      (observedPropertyName p ++ [name_opr orRow])
      (opr_urn p ++ [def_opr orRow])
      (uom p ++ [match name_uom orRow with Some u => u | None => "n/a" end])
  in
  if qualityIndex then
    mkProperties
      (observedProperty p1 ++ [(def_opr orRow ++ ":qualityIndex")%string])
      (observedPropertyId p1 ++ [- id_opr orRow])
      (observedPropertyName p1 ++ [(name_opr orRow ++ ":qualityIndex")%string])
      (opr_urn p1 ++ [(def_opr orRow ++ ":qualityIndex")%string])
      (uom p1 ++ ["-"])
  else p1.

(** Lines 939-962 of [setData]. *)
Definition set_properties (qualityIndex : bool) (obspr_res : list obspr_row)
  : properties :=
  fold_left (add_property qualityIndex) obspr_res no_properties.



End Observation.

(** * Vocabulary of the statements *)

Module AggregatorSpec.
Import Aggregator.













(** An hourly example: samples at 01:00:00, 01:00:01 and 02:00:00 (in
    seconds after [begin = 00:00:00]), one column. *)
Definition hourly_series : list row :=
  [mkRow 3600 [Some 1%Q]; mkRow 3601 [Some 2%Q]; mkRow 7200 [Some 3%Q]].

Definition hourly_request : aggregate :=
  mkAggregate "AVG" (PFloat (-9999 # 10)) (PInt (-100)).





End AggregatorSpec.

Module SamplingTimeSpec.
Import SamplingTime.

(** Two measuring procedures: A over days 1 to 5, B over days 3 to 10. *)
Definition catalog_AB : catalog :=
  [ mkProcedure "A" (Some "insitu-fixed-point") (Some 1) (Some 5);
    mkProcedure "B" (Some "insitu-fixed-point") (Some 3) (Some 10) ].

(** No virtual procedure has a file. *)
Definition no_plugins : string -> option (list string) := fun _ => None.

(** The procedure is in the catalog and is not virtual. *)
Definition leaf (db : catalog) (p : string) : Prop :=
  exists oty rest,
    select_type db p = oty :: rest /\ String.eqb oty "virtual" = false.

End SamplingTimeSpec.

Module ProceduresSpec.
Import Procedures.

(** The store after two derivation instances, [0] and [1], have been
    constructed. *)
Definition two_instances : store :=
  snd (construct (snd (construct initial))).

End ProceduresSpec.

Module HQSpec.
Import HQ.

(** Every list of the table has an entry at position [o]. *)
Definition in_table (h : hqCurves) (o : nat) : Prop :=
  (o < List.length (hq_from h))%nat /\ (o < List.length (hq_to h))%nat
  /\ (o < List.length (hq_low h))%nat /\ (o < List.length (hq_up h))%nat
  /\ (o < List.length (hq_A h))%nat /\ (o < List.length (hq_B h))%nat
  /\ (o < List.length (hq_C h))%nat /\ (o < List.length (hq_K h))%nat.

(** Segment [o] applies to the instant [t] and the value [v]. *)
Definition segment_matches (h : hqCurves) (o : nat) (t : Z) (v : Q) : Prop :=
  (nth o (hq_from h) 0 < t <= nth o (hq_to h) 0)
  /\ (nth o (hq_low h) 0 <= v)%Q /\ (v < nth o (hq_up h) 0)%Q.

(** What segment [o] gives for a sample of value [v], by the sign of
    [v - B] and of the exponent [C]: the no-data row, the error of a zero
    base with a negative exponent, or what the power gives, an error or
    the row of the curve value. *)
Definition segment_outcome (fpow : Q -> Q -> result Q) (qi : bool)
  (h : hqCurves) (o : nat) (rec : sample) (v : Q) : result (list out_row) :=
  let x := (v - nth o (hq_B h) 0)%Q in
  let c := nth o (hq_C h) 0%Q in
  match Qcompare x 0 with
  | Lt =>
      Ok [(s_time rec,
           PFloat (-9999 # 10) :: (if qi then [PInt 120] else []))]
  | Eq =>
      match Qcompare c 0 with
      | Lt => Raise ZeroDivisionError
      | _ =>
          match fpow x c with
          | Ok p =>
              Ok [(s_time rec,
                   PFormat4 (nth o (hq_K h) 0 + nth o (hq_A h) 0 * p)%Q
                   :: (if qi then [s_qi rec] else []))]
          | Raise e => Raise e
          end
      end
  | Gt =>
      match fpow x c with
      | Ok p =>
          Ok [(s_time rec,
               PFormat4 (nth o (hq_K h) 0 + nth o (hq_A h) 0 * p)%Q
               :: (if qi then [s_qi rec] else []))]
      | Raise e => Raise e
      end
  end.

(** The sample has no value or a value below [-999.0]. *)
Definition rejected (rec : sample) : bool :=
  match s_val rec with
  | None => true
  | Some v => Qlt_bool v (-999 # 1)
  end.

(** A stand-in for the power function in concrete runs: the value for
    the exponent one. *)
Definition first_power : Q -> Q -> result Q := fun x _ => Ok x.

(** A power function that overflows everywhere. *)
Definition overflowing_power : Q -> Q -> result Q :=
  fun _ _ => Raise OverflowError.

Definition header : list cell :=
  [CText "from"; CText "to"; CText "low_val"; CText "up_val";
   CText "A"; CText "B"; CText "C"; CText "K"].

(** A file line: valid over [(f, t]], for values in [[lo, hi)], with the
    curve [k + a * (v - 0) ** 1]. *)
Definition segment_line (f t : Z) (lo hi a k : Q) : list cell :=
  [CTime f; CTime t; CNum lo; CNum hi; CNum a; CNum 0; CNum 1; CNum k].

(** Two segments valid over the same period with overlapping value
    ranges. *)
Definition overlapping_table : hqCurves :=
  mkCurves [0; 0] [100; 100] [0%Q; 0%Q] [10%Q; 20%Q]
    [1%Q; 2%Q] [0%Q; 0%Q] [1%Q; 1%Q] [0%Q; 0%Q].

(** A segment for the values from [-2000] up to zero. *)
Definition low_table : hqCurves :=
  mkCurves [0] [100] [(-2000)%Q] [0%Q] [1%Q] [(-2000)%Q] [1%Q] [0%Q].

(** A segment whose exponent is negative. *)
Definition inverse_table : hqCurves :=
  mkCurves [0] [100] [0%Q] [10%Q] [1%Q] [5%Q] [(-1)%Q] [0%Q].

(** The path of a rating-curve file. *)
Definition hq_path : string := "/services/demo/Q/Q.rcv".

End HQSpec.

(** After a stable sort by [leb] of a list that was in the order
    [before]: [a] may stand before [b] when it is not greater, and on a tie
    it stood before [b] already. *)
Definition sorted_then_before {A : Type} (leb : A -> A -> bool)
  (before : A -> A -> Prop) (a b : A) : Prop :=
  leb a b = true /\ (leb b a = true -> before a b).

Module ProfileSpec.
Import Profile.

(** The column that the second sort reads. *)
Definition sort_column (qi : bool) : nat := if qi then 4%nat else 3%nat.

(** The order of the output: the sort column descending, and among rows
    that tie on it the timestamp ascending. *)
Definition column_then_time (i : nat) (a b : row) : Prop :=
  (key i b <= key i a)%Q /\ ((key i a <= key i b)%Q -> time a <= time b).

(** The order the composition is said to have: the timestamp ascending,
    and among rows with one timestamp the sort column descending. *)
Definition time_then_column (i : nat) (a b : row) : Prop :=
  time a < time b \/ (time a = time b /\ (key i b <= key i a)%Q).

(** Two members, one reading each: the upper one at instant 1, the lower
    one at instant 2. *)
Definition upper_member : member :=
  mkMember "P_UPPER" 1 [mkRow 1 [10%Q; 50%Q]].

Definition lower_member : member :=
  mkMember "P_LOWER" 2 [mkRow 2 [11%Q; 60%Q]].

End ProfileSpec.

Module AggregatorExamples.
Import Aggregator AggregatorSpec.






End AggregatorExamples.

Module SamplingTimeExamples.
Import SamplingTime.

(** The catalog holds the procedure as a virtual one. *)
Definition virtual (db : catalog) (p : string) : Prop :=
  exists rest, select_type db p = "virtual" :: rest.

(** A set of virtual procedures closed under dependency: each one has a
    file that declares at least one dependency, all of them in the set. *)
Definition closed_virtual_set (db : catalog)
  (plugins : string -> option (list string)) (S : string -> Prop) : Prop :=
  forall p, S p ->
    virtual db p
    /\ exists deps, plugins p = Some deps /\ deps <> [] /\ Forall S deps.

(** A virtual procedure without a file, or whose file declares nothing. *)
Definition hollow (db : catalog) (plugins : string -> option (list string))
  (p : string) : Prop :=
  virtual db p /\ (plugins p = None \/ plugins p = Some []).

(** A catalog with the virtual procedure V over the measuring procedure A,
    and the virtual procedure W without a file. *)
Definition catalog_V : catalog :=
  [ mkProcedure "A" (Some "insitu-fixed-point") (Some 1) (Some 5);
    mkProcedure "V" (Some "virtual") None None;
    mkProcedure "W" (Some "virtual") None None ].

Definition plugins_V : string -> option (list string) :=
  fun p => if String.eqb p "V" then Some ["A"] else None.

(** V declares itself as its dependency. *)
Definition plugins_loop : string -> option (list string) :=
  fun p => if String.eqb p "V" then Some ["V"] else None.

End SamplingTimeExamples.

Module HQExamples.
Import HQ HQSpec.

(** The eight lists of the table have one length. *)
Definition rectangular (h : hqCurves) : Prop :=
  List.length (hq_to h) = List.length (hq_from h)
  /\ List.length (hq_low h) = List.length (hq_from h)
  /\ List.length (hq_up h) = List.length (hq_from h)
  /\ List.length (hq_A h) = List.length (hq_from h)
  /\ List.length (hq_B h) = List.length (hq_from h)
  /\ List.length (hq_C h) = List.length (hq_from h)
  /\ List.length (hq_K h) = List.length (hq_from h).

(** A segment as one value. *)
Record segment : Type := mkSegment {
  seg_from : Z; seg_to : Z;
  seg_low : Q; seg_up : Q;
  seg_A : Q; seg_B : Q; seg_C : Q; seg_K : Q
}.

(** Its line in a file whose header is [header]. *)
Definition line_of (s : segment) : list cell :=
  [CTime (seg_from s); CTime (seg_to s); CNum (seg_low s); CNum (seg_up s);
   CNum (seg_A s); CNum (seg_B s); CNum (seg_C s); CNum (seg_K s)].

(** The table that holds the segments in order. *)
Definition table_of (l : list segment) : hqCurves :=
  mkCurves (map seg_from l) (map seg_to l) (map seg_low l) (map seg_up l)
    (map seg_A l) (map seg_B l) (map seg_C l) (map seg_K l).

(** The names that the header must hold. *)
Definition required_columns : list string :=
  ["from"; "to"; "low_val"; "up_val"; "A"; "B"; "C"; "K"].

(** What a row of the output can be for the sample [rec]. *)
Definition row_of_sample (qi : bool) (rec : sample) (row : out_row) : Prop :=
  row = emit qi (s_time rec) nodata (PInt 110)
  \/ row = emit qi (s_time rec) nodata (PInt 120)
  \/ exists y, row = emit qi (s_time rec) (PFormat4 y) (s_qi rec).

Definition one_segment : segment :=
  mkSegment 0 100 0 10 2 1 1 0.

(** The power [x ** c] fails with the exception [e]: a base of zero with a
    negative exponent is a [ZeroDivisionError], any other failure is one
    of the operator. *)
Definition power_fails (fpow : Q -> Q -> result Q) (x c : Q) (e : exn)
  : Prop :=
  ((x == 0)%Q /\ (c < 0)%Q /\ e = ZeroDivisionError)
  \/ (~ ((x == 0)%Q /\ (c < 0)%Q) /\ fpow x c = Raise e).

(** A segment applies to the sample with a base [v - B] that is not
    negative, and its power fails with [e]. *)
Definition sample_fails (fpow : Q -> Q -> result Q) (h : hqCurves)
  (rec : sample) (e : exn) : Prop :=
  exists v o,
    s_val rec = Some v
    /\ in_table h o
    /\ segment_matches h o (s_time rec) v
    /\ (0 <= v - nth o (hq_B h) 0)%Q
    /\ power_fails fpow (v - nth o (hq_B h) 0)%Q (nth o (hq_C h) 0%Q) e.

End HQExamples.

Module ObservationSpec.



End ObservationSpec.

Module ProfileExamples.
Import Profile.

(** Two members with one observed property and its quality code. *)
Definition quality_members : list member :=
  [ mkMember "P_UPPER" 1 [mkRow 2 [10%Q; 100%Q]; mkRow 4 [11%Q; 200%Q]];
    mkMember "P_LOWER" 2 [mkRow 1 [12%Q; 100%Q]; mkRow 2 [13%Q; 210%Q]] ].

End ProfileExamples.

(** * Texts split at a separator *)

Module StringFacts.

Lemma split_on_not_empty (sep : ascii) (s : string) : split_on sep s <> [].
Proof.
  destruct s as [|c s]; cbn [split_on]; [discriminate|].
  destruct (Ascii.eqb c sep); [discriminate|].
  destruct (split_on sep s); discriminate.
Qed.

(** A text that holds the separator has at least two parts. *)
Lemma split_on_two (sep : ascii) (w : string) : forall p,
  exists x y l, split_on sep (p ++ String sep w) = x :: y :: l.
Proof.
  induction p as [|c p IH].
  - cbn [String.append split_on]. rewrite Ascii.eqb_refl.
    pose proof (split_on_not_empty sep w) as Hw.
    destruct (split_on sep w) as [|y l]; [congruence|].
    repeat eexists.
  - cbn [String.append split_on].
    destruct IH as (x & y & l & ->).
    destruct (Ascii.eqb c sep); repeat eexists.
Qed.

(** The last part of a text that ends with a separator and a word is the
    last part of the word. *)
Lemma last_split_on_append (sep : ascii) (w : string) : forall s d,
  last (split_on sep (s ++ String sep w)) d = last (split_on sep w) d.
Proof.
  induction s as [|c s IH]; intros d.
  - cbn [String.append split_on]. rewrite Ascii.eqb_refl.
    pose proof (split_on_not_empty sep w) as Hne.
    destruct (split_on sep w) as [|x l]; [congruence|reflexivity].
  - cbn [String.append split_on].
    specialize (IH d).
    destruct (split_on_two sep w s) as (x & y & l & Heq).
    rewrite Heq in *.
    destruct (Ascii.eqb c sep); exact IH.
Qed.


End StringFacts.

(** * Temporal aggregation *)

Module AggregatorProofs.
Import Aggregator AggregatorSpec StringFacts.



























(** ** C1 *)






(** ** Any series *)




















(** ** C5 *)







(** The hourly example evaluated: the sample at 01:00:00 is in the bucket
    that ends at 01:00:00, and the empty third bucket carries the
    sentinel of its kind of column. *)
Example hourly_buckets :
  applyFunction 4 hourly_request 0 10800 3600 ["urn:stage"] hourly_series
  = Some (Ok [(3600, [PFloat (round4 (1 / 1))]);
              (7200, [PFloat (round4 ((0 + 2 + 3) / 2))]);
              (10800, [PFloat (-9999 # 10)])])
  /\ applyFunction 4 hourly_request 0 10800 3600 ["urn:stage:qualityIndex"]
       hourly_series
     = Some (Ok [(3600, [PInt 1]); (7200, [PInt 2]); (10800, [PInt (-100)])]).
Proof. split; vm_compute; reflexivity. Qed.

End AggregatorProofs.

(** * Sampling time of a virtual procedure *)

Module SamplingTimeProofs.
Import SamplingTime SamplingTimeSpec.

Lemma z_min_list_same (x : Z) (l : list Z) :
  Forall (fun y => y = x) l -> z_min_list x l = x.
Proof.
  unfold z_min_list. induction 1 as [|y l Hy _ IH]; simpl; [reflexivity|].
  subst y. now rewrite Z.min_id.
Qed.

Lemma z_max_list_same (x : Z) (l : list Z) :
  Forall (fun y => y = x) l -> z_max_list x l = x.
Proof.
  unfold z_max_list. induction 1 as [|y l Hy _ IH]; simpl; [reflexivity|].
  subst y. now rewrite Z.max_id.
Qed.

Lemma group_keys_In (rows : list (Z * Z)) : forall seen g,
  In g (group_keys rows seen) -> In g rows.
Proof.
  induction rows as [|r rows IH]; intros seen g; simpl; [tauto|].
  destruct (existsb (same_interval r) seen); simpl; intros H.
  - right. eapply IH; eauto.
  - destruct H as [H|H]; [now left|right; eapply IH; eauto].
Qed.

Lemma where_rows_In (db : catalog) (names : list string) (g : Z * Z) :
  In g (where_rows db names) ->
  exists r, In r db /\ In (name_prc r) names
            /\ stime_prc r = Some (fst g) /\ etime_prc r = Some (snd g).
Proof.
  unfold where_rows. intros H. apply in_flat_map in H as (r & Hr & Hg).
  apply filter_In in Hr as [Hr Hsel]. exists r. split; [exact Hr|].
  unfold defined_and_named in Hsel. unfold interval_of in Hg.
  destruct (stime_prc r) as [s|]; [|discriminate].
  destruct (etime_prc r) as [e|]; [|discriminate].
  destruct Hg as [Hg|[]]. subst g. simpl. split; [|auto].
  apply existsb_exists in Hsel as (n & Hn & Heq).
  apply String.eqb_eq in Heq. now subst n.
Qed.

(** Whatever the dependencies, each row of the grouped query is the
    declared interval of one of them: the minimum and the maximum are
    taken inside a group of equal intervals. *)
Lemma select_min_max_rows (db : catalog) (names : list string)
  (row : option Z * option Z) :
  In row (select_min_max db names) ->
  exists r, In r db /\ In (name_prc r) names
            /\ stime_prc r = fst row /\ etime_prc r = snd row
            /\ fst row <> None /\ snd row <> None.
Proof.
  unfold select_min_max. intros H. apply in_map_iff in H as (g & Hrow & Hg).
  apply group_keys_In in Hg.
  apply where_rows_In in Hg as (r & Hr & Hn & Hs & He).
  exists r. split; [exact Hr|]. split; [exact Hn|]. subst row. simpl.
  rewrite z_min_list_same, z_max_list_same.
  - repeat split; auto; discriminate.
  - apply Forall_forall. intros y Hy. apply in_map_iff in Hy as (m & <- & Hm).
    apply filter_In in Hm as [_ Hm]. unfold same_interval in Hm.
    apply andb_prop in Hm as [_ Hm]. apply Z.eqb_eq in Hm. auto.
  - apply Forall_forall. intros y Hy. apply in_map_iff in Hy as (m & <- & Hm).
    apply filter_In in Hm as [_ Hm]. unfold same_interval in Hm.
    apply andb_prop in Hm as [Hm _]. apply Z.eqb_eq in Hm. auto.
Qed.

(** ** C2 *)

(** C2, evaluated on the code.  For the dependencies A (days 1 to 5) and
    B (days 3 to 10) the grouped query has one row per distinct interval,
    [setSampligTime] keeps the first row, (day 1, day 5), and no row of
    the query is (day 1, day 10). *)
Theorem sampling_time_A_B :
  setSampligTime 3 catalog_AB no_plugins ["A"; "B"]
  = Some (Ok (Some 1, Some 5))
  /\ setSampligTime 3 catalog_AB no_plugins ["A"; "B"]
     <> Some (Ok (Some 1, Some 10))
  /\ select_min_max catalog_AB ["A"; "B"]
     = [(Some 1, Some 5); (Some 3, Some 10)]
  /\ forall row, In row (select_min_max catalog_AB ["A"; "B"]) ->
       row <> (Some 1, Some 10).
Proof.
  split; [reflexivity|]. split; [discriminate|]. split; [reflexivity|].
  intros row H. change (select_min_max catalog_AB ["A"; "B"])
    with [(Some 1, Some 5); (Some 3, Some 10)] in H.
  destruct H as [<-|[<-|[]]]; discriminate.
Qed.

(** The batch of lines 171-182 is never raised: no count row equals the
    integer [0]. *)
Lemma procedures_not_found_empty (db : catalog) (procedures : list string) :
  procedures_not_found db procedures = Ok [].
Proof.
  unfold procedures_not_found.
  assert (H : forall l acc,
             fold_left
               (fun acc procedure =>
                  pnf <- acc ;;
                  row <- index (select_count db procedure) 0 ;;
                  Ok (if row_eq_int row 0 then pnf ++ [procedure] else pnf))
               l (Ok acc) = Ok acc).
  { induction l as [|p l IH]; intros acc; simpl; [reflexivity|]. apply IH. }
  apply H.
Qed.

(** Every procedure that the walk keeps as a leaf was found in the catalog
    by the type query, hence is counted at least once by the count query:
    whichever way a count is compared, the list of line 171 stays empty. *)
Lemma cascade_leaves_known (db : catalog)
  (plugins : string -> option (list string)) :
  forall fuel tmp i acc leaves,
    cascade fuel db plugins tmp i acc = Some (Ok leaves) ->
    Forall (fun p => select_type db p <> []) acc ->
    Forall (fun p => select_type db p <> []) leaves.
Proof.
  induction fuel as [|fuel IH]; intros tmp i acc leaves H Hacc;
    cbn [cascade] in H; [discriminate|].
  destruct (nth_error tmp i) as [p|]; [|inversion H; now subst].
  destruct (select_type db p) as [|oty tl] eqn:Hsel; [discriminate|].
  destruct (String.eqb oty "virtual").
  - destruct (plugins p) as [deps|]; [destruct (0 <? List.length deps)%nat|];
      eapply IH; eauto.
  - eapply IH; [exact H|]. apply Forall_app. split; [exact Hacc|].
    constructor; [|constructor]. rewrite Hsel. discriminate.
Qed.

Lemma select_type_counted (db : catalog) (p : string) :
  select_type db p <> [] ->
  exists n, select_count db p = [[Z.of_nat n]] /\ (0 < n)%nat.
Proof.
  intros H. unfold select_count. eexists. split; [reflexivity|].
  induction db as [|r db IH]; [now elim H|].
  cbn [filter]. cbn [select_type flat_map] in H.
  destruct (String.eqb (name_prc r) p); [simpl; lia|].
  apply IH. exact H.
Qed.

(** The walk over the declared dependencies stops at the first one that
    the catalog does not know, whatever follows it. *)
Lemma cascade_first_missing (db : catalog)
  (plugins : string -> option (list string)) (p : string) (rest : list string) :
  select_type db p = [] ->
  forall found walked procedures fuel,
    Forall (leaf db) found ->
    (List.length found < fuel)%nat ->
    cascade fuel db plugins (walked ++ found ++ p :: rest)
      (List.length walked) procedures
    = Some (Raise (SOSException "InvalidParameterValue" "procedure"
                     (not_found p))).
Proof.
  intros Hp. induction found as [|x found IH];
    intros walked procedures fuel Hleaf Hfuel;
    (destruct fuel as [|fuel]; [simpl in Hfuel; lia|]); cbn [cascade].
  - rewrite nth_error_app2, Nat.sub_diag by lia. cbn [app nth_error].
    now rewrite Hp.
  - rewrite nth_error_app2, Nat.sub_diag by lia. cbn [app nth_error].
    inversion Hleaf as [|? ? (oty & tl & Hsel & Hty) Hfound]; subst.
    rewrite Hsel, Hty.
    replace (walked ++ x :: found ++ p :: rest)
      with ((walked ++ [x]) ++ found ++ p :: rest)
      by (now rewrite <- app_assoc).
    replace (S (List.length walked)) with (List.length (walked ++ [x]))
      by (rewrite length_app; simpl; lia).
    apply IH; [exact Hfound|simpl in Hfuel; lia].
Qed.

(** Sampling-time resolution fails on the first dependency that is not in
    the catalog and names only that one, whatever other dependencies are
    missing after it. *)
Lemma setSampligTime_first_missing (db : catalog)
  (plugins : string -> option (list string))
  (found : list string) (p : string) (rest : list string) (fuel : nat) :
  Forall (leaf db) found ->
  select_type db p = [] ->
  (List.length found < fuel)%nat ->
  setSampligTime fuel db plugins (found ++ p :: rest)
  = Some (Raise (SOSException "InvalidParameterValue" "procedure"
                   (not_found p))).
Proof.
  intros Hfound Hp Hfuel. unfold setSampligTime.
  destruct (List.length (found ++ p :: rest) =? 0)%nat eqn:E.
  - apply Nat.eqb_eq in E. rewrite length_app in E. simpl in E. lia.
  - pose proof (cascade_first_missing db plugins p rest Hp found [] [] fuel
                  Hfound Hfuel) as H.
    cbn [app List.length] in H. now rewrite H.
Qed.

(** ** C6 *)

(** C6, evaluated on the code.  With the two dependencies A and B both
    absent from the catalog, resolution raises the invalid-parameter error
    of line 139 for A alone: B is not named, and the batched message of
    line 182 is not produced. *)
Theorem missing_dependencies_A_B :
  forall fuel,
    setSampligTime (S fuel) [] no_plugins ["A"; "B"]
    = Some (Raise (SOSException "InvalidParameterValue" "procedure"
                     "Virtual Procedure Error: procedure A not found in the database"))
    /\ setSampligTime (S fuel) [] no_plugins ["A"; "B"]
       <> Some (Raise (PyException
                  "Virtual Procedure Error: procedure A, B not found in the database")).
Proof.
  intros fuel. split; [reflexivity|discriminate].
Qed.

End SamplingTimeProofs.

(** * The dependency map of a derivation *)

Module ProceduresProofs.
Import Procedures ProceduresSpec.

Lemma own_addProcedure_class (st : store) (a b : nat) name op :
  own st a = None -> own (addProcedure st a name op) b = own st b.
Proof.
  intros Ha. unfold addProcedure. now rewrite Ha.
Qed.

Lemma own_construct (st : store) :
  own (snd (construct st)) (fst (construct st)) = None.
Proof.
  unfold construct, own. simpl.
  now rewrite nth_error_app2, Nat.sub_diag by lia.
Qed.

(** ** C9 *)

(** C9 as stated fails: with two instances constructed, a dependency
    recorded through the first one shows in the map of the second, and an
    instance constructed afterwards does not start with an empty map. *)
Lemma shared_dependency_map_counterexample :
  procedures (addProcedure two_instances 0 "A" ["urn:stage"]) 1
  <> procedures two_instances 1
  /\ procedures
       (snd (construct (addProcedure two_instances 0 "A" ["urn:stage"])))
       (fst (construct (addProcedure two_instances 0 "A" ["urn:stage"])))
     <> [].
Proof.
  split; vm_compute; discriminate.
Qed.

(** C9, amended.  The dependency map is an attribute of the class: for two
    instances that have not bound a map of their own, a dependency
    recorded with [addProcedure] through one of them is in the map read
    through the other; an instance that has bound its own map is not
    affected; and a newly constructed instance reads the map of the class
    as it stands, which is empty in the initial state. *)
Theorem class_level_dependency_map :
  forall (st : store) (a b : nat) (name : string) (op : list string),
    own st a = None ->
    (own st b = None ->
     procedures (addProcedure st a name op) b
     = dict_set name op (procedures st b))
    /\ (forall d, own st b = Some d ->
          procedures (addProcedure st a name op) b = d)
    /\ procedures (snd (construct (addProcedure st a name op)))
         (fst (construct (addProcedure st a name op)))
       = dict_set name op (class_procedures st)
    /\ procedures (snd (construct initial)) (fst (construct initial)) = [].
Proof.
  intros st a b name op Ha. split; [|split; [|split]].
  - intros Hb. unfold procedures.
    rewrite (own_addProcedure_class st a b name op Ha), Hb.
    unfold addProcedure. now rewrite Ha.
  - intros d Hb. unfold procedures.
    now rewrite (own_addProcedure_class st a b name op Ha), Hb.
  - unfold procedures. rewrite own_construct.
    unfold addProcedure. now rewrite Ha.
  - reflexivity.
Qed.

Lemma class_level_dependency_map_witness :
  own two_instances 0 = None
  /\ procedures (addProcedure two_instances 0 "A" ["urn:stage"]) 1
     = [("A", ["urn:stage"])].
Proof.
  assert (H0 : own two_instances 0 = None) by reflexivity.
  split; [exact H0|].
  destruct (class_level_dependency_map two_instances 0 1 "A" ["urn:stage"] H0)
    as (Hshare & _).
  rewrite Hshare; reflexivity.
Defined.

End ProceduresProofs.

(** * The rating-curve transform *)

Module HQProofs.
Import HQ HQSpec.

Lemma index_nth {A : Type} (l : list A) (o : nat) (d : A) :
  (o < List.length l)%nat -> index l o = Ok (nth o l d).
Proof.
  intros H. unfold index. now rewrite (nth_error_nth' l d H).
Qed.

Lemma Qlt_bool_iff (a b : Q) : Qlt_bool a b = true <-> (a < b)%Q.
Proof.
  unfold Qlt_bool. rewrite negb_true_iff. split.
  - intros H. apply Qnot_le_lt. intros Hle.
    apply Qle_bool_iff in Hle. congruence.
  - intros H. destruct (Qle_bool b a) eqn:E; [|reflexivity].
    apply Qle_bool_iff in E. exfalso. now apply (Qlt_not_le a b).
Qed.

Lemma Qlt_bool_false (a b : Q) : ~ (a < b)%Q -> Qlt_bool a b = false.
Proof.
  intros H. destruct (Qlt_bool a b) eqn:E; [|reflexivity].
  apply Qlt_bool_iff in E. contradiction.
Qed.

Section Lookup.

Variable fpow : Q -> Q -> result Q.

Lemma matches_true (h : hqCurves) (o : nat) (t : Z) (v : Q) :
  in_table h o -> segment_matches h o t v -> matches h o t v = Ok true.
Proof.
  intros (Hf & Ht & Hl & Hu & _) ((H1 & H2) & H3 & H4). unfold matches.
  rewrite (index_nth _ _ 0 Hf). cbn [bind].
  destruct (Z.ltb_spec (nth o (hq_from h) 0) t); [|lia].
  rewrite (index_nth _ _ 0 Ht). cbn [bind].
  destruct (Z.leb_spec t (nth o (hq_to h) 0)); [|lia].
  rewrite (index_nth _ _ 0%Q Hl). cbn [bind].
  apply Qle_bool_iff in H3. rewrite H3.
  rewrite (index_nth _ _ 0%Q Hu). cbn [bind].
  apply Qlt_bool_iff in H4. now rewrite H4.
Qed.

Lemma matches_false (h : hqCurves) (o : nat) (t : Z) (v : Q) :
  in_table h o -> ~ segment_matches h o t v -> matches h o t v = Ok false.
Proof.
  intros (Hf & Ht & Hl & Hu & _) Hno. unfold matches.
  rewrite (index_nth _ _ 0 Hf). cbn [bind].
  destruct (Z.ltb_spec (nth o (hq_from h) 0) t); [|reflexivity].
  rewrite (index_nth _ _ 0 Ht). cbn [bind].
  destruct (Z.leb_spec t (nth o (hq_to h) 0)); [|reflexivity].
  rewrite (index_nth _ _ 0%Q Hl). cbn [bind].
  destruct (Qle_bool (nth o (hq_low h) 0%Q) v) eqn:E; [|reflexivity].
  apply Qle_bool_iff in E.
  rewrite (index_nth _ _ 0%Q Hu). cbn [bind].
  rewrite Qlt_bool_false; [reflexivity|].
  intros Hlt. apply Hno. unfold segment_matches. auto.
Qed.

Lemma in_table_below (h : hqCurves) (o o' : nat) :
  in_table h o -> (o' <= o)%nat -> in_table h o'.
Proof.
  unfold in_table. intros H Hle. repeat split; lia.
Qed.

Lemma Qeq_bool_false (a b : Q) : ~ (a == b)%Q -> Qeq_bool a b = false.
Proof.
  intros H. destruct (Qeq_bool a b) eqn:E; [|reflexivity].
  apply Qeq_bool_iff in E. contradiction.
Qed.

(** The power of line 625 by the sign of its base and of its exponent. *)
Lemma power_cases (x c : Q) :
  (0 <= x)%Q ->
  power fpow x c
  = match Qcompare x 0 with
    | Eq => match Qcompare c 0 with
            | Lt => Raise ZeroDivisionError
            | _ => fpow x c
            end
    | _ => fpow x c
    end.
Proof.
  intros Hx. unfold power.
  destruct (Qcompare_spec x 0) as [Hx0|Hx0|Hx0].
  - apply Qeq_bool_iff in Hx0. rewrite Hx0. cbn [andb].
    destruct (Qcompare_spec c 0) as [Hc|Hc|Hc].
    + rewrite Qlt_bool_false; [reflexivity|].
      rewrite Hc. apply Qlt_irrefl.
    + apply Qlt_bool_iff in Hc. now rewrite Hc.
    + rewrite Qlt_bool_false; [reflexivity|].
      intros H. exact (Qlt_irrefl _ (Qlt_trans _ _ _ H Hc)).
  - exfalso. exact (Qlt_not_le _ _ Hx0 Hx).
  - rewrite Qeq_bool_false; [reflexivity|].
    intros H. rewrite H in Hx0. exact (Qlt_irrefl _ Hx0).
Qed.

(** What a matching segment gives, once the loop is at it. *)
Lemma segments_at_match (qi : bool) (h : hqCurves) (rec : sample) (v : Q)
  (o : nat) (os : list nat) :
  s_val rec = Some v ->
  in_table h o ->
  segment_matches h o (s_time rec) v ->
  segments fpow qi h rec (o :: os) = segment_outcome fpow qi h o rec v.
Proof.
  intros Hv Hin Hm. cbn [segments]. rewrite Hv.
  rewrite (matches_true h o _ v Hin Hm). cbn [bind].
  destruct Hin as (_ & _ & _ & _ & Ha & Hb & Hc & Hk).
  rewrite (index_nth _ _ 0%Q Hb). cbn [bind]. unfold segment_outcome.
  set (x := (v - nth o (hq_B h) 0)%Q). set (c := nth o (hq_C h) 0%Q).
  destruct (Qle_bool 0 x) eqn:Hx.
  - apply Qle_bool_iff in Hx. unfold curve_value.
    rewrite (index_nth _ _ 0%Q Hk), (index_nth _ _ 0%Q Ha),
      (index_nth _ _ 0%Q Hb), (index_nth _ _ 0%Q Hc).
    cbn [bind]. fold x c. rewrite (power_cases x c Hx).
    destruct (Qcompare_spec x 0) as [Hx0|Hx0|Hx0].
    + destruct (Qcompare c 0); [|reflexivity|];
        destruct (fpow x c); destruct qi; reflexivity.
    + exfalso. exact (Qlt_not_le _ _ Hx0 Hx).
    + destruct (fpow x c); destruct qi; reflexivity.
  - assert (Hneg : (x < 0)%Q).
    { apply Qnot_le_lt. intros H. apply Qle_bool_iff in H. congruence. }
    destruct (Qcompare_spec x 0) as [Hx0|Hx0|Hx0].
    + rewrite Hx0 in Hneg. exfalso. exact (Qlt_irrefl _ Hneg).
    + destruct qi; reflexivity.
    + exfalso. exact (Qlt_irrefl _ (Qlt_trans _ _ _ Hneg Hx0)).
Qed.

Lemma segments_first_match (qi : bool) (h : hqCurves) (rec : sample) (v : Q)
  (o : nat) :
  s_val rec = Some v ->
  in_table h o ->
  segment_matches h o (s_time rec) v ->
  (forall o', (o' < o)%nat -> ~ segment_matches h o' (s_time rec) v) ->
  forall m k,
    (k <= o < k + m)%nat ->
    segments fpow qi h rec (seq k m) = segment_outcome fpow qi h o rec v.
Proof.
  intros Hv Hin Hm Hfirst. induction m as [|m IH]; intros k Hk; [lia|].
  cbn [seq]. destruct (Nat.eq_dec k o) as [->|Hne].
  - now apply segments_at_match.
  - cbn [segments]. rewrite Hv.
    rewrite (matches_false h k _ v); cycle 1.
    { apply (in_table_below h o); [exact Hin|lia]. }
    { apply Hfirst. lia. }
    cbn [bind]. rewrite IH by lia.
    destruct Hin as (Hf & _).
    destruct (segment_outcome fpow qi h o rec v) as [rows|e];
      [|reflexivity].
    cbn [bind].
    destruct (Nat.eqb_spec k (List.length (hq_from h) - 1)); [lia|reflexivity].
Qed.

(** The lookup of a sample that reaches it and has a first matching
    segment. *)
Lemma rows_of_sample_first_match (qi : bool) (h : hqCurves) (rec : sample)
  (v : Q) (o : nat) :
  s_val rec = Some v ->
  (qi = true -> ~ (v < -999 # 1)%Q) ->
  in_table h o ->
  segment_matches h o (s_time rec) v ->
  (forall o', (o' < o)%nat -> ~ segment_matches h o' (s_time rec) v) ->
  rows_of_sample fpow qi h rec = segment_outcome fpow qi h o rec v.
Proof.
  intros Hv Hgate Hin Hm Hfirst.
  assert (Hlookup : segments fpow qi h rec (seq 0 (List.length (hq_from h)))
                    = segment_outcome fpow qi h o rec v).
  { apply segments_first_match; auto. destruct Hin as (Hf & _). lia. }
  unfold rows_of_sample. destruct qi; [|exact Hlookup].
  rewrite Hv, Qlt_bool_false; [exact Hlookup|auto].
Qed.

End Lookup.

(** ** C3 *)

(** C3 as stated fails: under quality reporting a value of [-1000] gives
    the quality code [110], not [120]. *)
Lemma low_value_quality_counterexample :
  rows_of_sample first_power true overlapping_table
    (mkSample 5 (Some (-1000 # 1)) (PInt 100))
  = Ok [(5, [PFloat (-9999 # 10); PInt 110])]
  /\ rows_of_sample first_power true overlapping_table
       (mkSample 5 (Some (-1000 # 1)) (PInt 100))
     <> Ok [(5, [PFloat (-9999 # 10); PInt 120])].
Proof.
  split; [reflexivity|discriminate].
Qed.

(** C3, amended.  Under quality reporting, a sample whose value is present
    and below [-999.0] gives exactly the row (timestamp, [-999.9], [110]),
    whatever the table holds: no segment is looked up. *)
Theorem low_value_rejected :
  forall (fpow : Q -> Q -> result Q) (h : hqCurves) (rec : sample) (v : Q),
    s_val rec = Some v ->
    (v < -999 # 1)%Q ->
    rows_of_sample fpow true h rec
    = Ok [(s_time rec, [PFloat (-9999 # 10); PInt 110])].
Proof.
  intros fpow h rec v Hv Hlow. unfold rows_of_sample. rewrite Hv.
  apply Qlt_bool_iff in Hlow. now rewrite Hlow.
Qed.

Lemma low_value_rejected_witness :
  s_val (mkSample 5 (Some (-1000 # 1)) (PInt 100)) = Some (-1000 # 1)
  /\ (-1000 # 1 < -999 # 1)%Q
  /\ rows_of_sample first_power true no_curves
       (mkSample 5 (Some (-1000 # 1)) (PInt 100))
     = Ok [(5, [PFloat (-9999 # 10); PInt 110])].
Proof.
  assert (H1 : s_val (mkSample 5 (Some (-1000 # 1)) (PInt 100))
               = Some (-1000 # 1)) by reflexivity.
  assert (H2 : (-1000 # 1 < -999 # 1)%Q) by reflexivity.
  split; [exact H1|]. split; [exact H2|].
  exact (low_value_rejected first_power no_curves
           (mkSample 5 (Some (-1000 # 1)) (PInt 100)) (-1000 # 1) H1 H2).
Defined.

(** ** C4 *)

(** C4 as stated fails under quality reporting for a value below
    [-999.0]: the segment from [-2000] up to zero applies to the value
    [-1000], and the row is the rejection row flagged 110, not the row
    of the segment. *)
Lemma first_matching_segment_counterexample :
  s_val (mkSample 5 (Some (-1000 # 1)) (PInt 100)) = Some (-1000 # 1)
  /\ in_table low_table 0
  /\ segment_matches low_table 0 5 (-1000 # 1)
  /\ rows_of_sample first_power true low_table
       (mkSample 5 (Some (-1000 # 1)) (PInt 100))
     = Ok [(5, [PFloat (-9999 # 10); PInt 110])]
  /\ rows_of_sample first_power false low_table
       (mkSample 5 (Some (-1000 # 1)) (PInt 100))
     = Ok [(5, [PFormat4 (0 + 1 * ((-1000 # 1) - (-2000 # 1)))%Q])].
Proof.
  split; [reflexivity|].
  split; [unfold in_table; simpl; repeat split; lia|].
  split; [unfold segment_matches, Qle, Qlt; simpl; repeat split; lia|].
  split; reflexivity.
Qed.

(** C4, amended.  First match wins.  For a sample with a present value
    that reaches the segment lookup (without quality reporting every such
    sample does; with it, those not below [-999.0]), if segment [o]
    applies and no segment before it does, the outcome is that of segment
    [o] alone: with [x = v - B] and the exponent [C] of that segment, the
    single row (timestamp, [-999.9]), flagged 120 under quality
    reporting, when [x] is negative; a [ZeroDivisionError] when [x] is
    zero and [C] negative; and otherwise the error of the power
    [x ** C], if it raises one, or the single row (timestamp,
    [K + A * x ** C] formatted), with the quality code of the sample under
    quality reporting.  Nothing is assumed of the segments after [o]:
    they may apply as well, and they need not even be complete. *)
Theorem first_matching_segment_wins :
  forall (fpow : Q -> Q -> result Q) (qi : bool) (h : hqCurves) (rec : sample)
         (v : Q) (o : nat),
    s_val rec = Some v ->
    (qi = true -> ~ (v < -999 # 1)%Q) ->
    in_table h o ->
    segment_matches h o (s_time rec) v ->
    (forall o', (o' < o)%nat -> ~ segment_matches h o' (s_time rec) v) ->
    let x := (v - nth o (hq_B h) 0)%Q in
    let c := nth o (hq_C h) 0%Q in
    ((x < 0)%Q ->
     rows_of_sample fpow qi h rec
     = Ok [(s_time rec,
            PFloat (-9999 # 10) :: (if qi then [PInt 120] else []))])
    /\ ((x == 0)%Q -> (c < 0)%Q ->
        rows_of_sample fpow qi h rec = Raise ZeroDivisionError)
    /\ ((0 <= x)%Q -> ~ ((x == 0)%Q /\ (c < 0)%Q) ->
        (forall p, fpow x c = Ok p ->
           rows_of_sample fpow qi h rec
           = Ok [(s_time rec,
                  PFormat4 (nth o (hq_K h) 0 + nth o (hq_A h) 0 * p)%Q
                  :: (if qi then [s_qi rec] else []))])
        /\ (forall e, fpow x c = Raise e ->
              rows_of_sample fpow qi h rec = Raise e)).
Proof.
  intros fpow qi h rec v o Hv Hgate Hin Hm Hfirst x c.
  rewrite (rows_of_sample_first_match fpow qi h rec v o Hv Hgate Hin Hm Hfirst).
  unfold segment_outcome. fold x c.
  split; [|split].
  - intros Hx. destruct (Qcompare_spec x 0) as [Hx0|Hx0|Hx0].
    + rewrite Hx0 in Hx. exfalso. exact (Qlt_irrefl _ Hx).
    + reflexivity.
    + exfalso. exact (Qlt_irrefl _ (Qlt_trans _ _ _ Hx Hx0)).
  - intros Hx Hc. destruct (Qcompare_spec x 0) as [Hx0|Hx0|Hx0].
    + destruct (Qcompare_spec c 0) as [Hc0|Hc0|Hc0].
      * rewrite Hc0 in Hc. exfalso. exact (Qlt_irrefl _ Hc).
      * reflexivity.
      * exfalso. exact (Qlt_irrefl _ (Qlt_trans _ _ _ Hc Hc0)).
    + rewrite Hx in Hx0. exfalso. exact (Qlt_irrefl _ Hx0).
    + rewrite Hx in Hx0. exfalso. exact (Qlt_irrefl _ Hx0).
  - intros Hx Hno. destruct (Qcompare_spec x 0) as [Hx0|Hx0|Hx0].
    + destruct (Qcompare_spec c 0) as [Hc0|Hc0|Hc0].
      * split; [intros p Hp; now rewrite Hp|intros e He; now rewrite He].
      * exfalso. apply Hno. split; assumption.
      * split; [intros p Hp; now rewrite Hp|intros e He; now rewrite He].
    + exfalso. exact (Qlt_not_le _ _ Hx0 Hx).
    + split; [intros p Hp; now rewrite Hp|intros e He; now rewrite He].
Qed.

Lemma first_matching_segment_wins_witness :
  s_val (mkSample 5 (Some 5%Q) (PInt 100)) = Some 5%Q
  /\ in_table overlapping_table 0
  /\ segment_matches overlapping_table 0 5 5%Q
  /\ segment_matches overlapping_table 1 5 5%Q
  /\ rows_of_sample first_power true overlapping_table
       (mkSample 5 (Some 5%Q) (PInt 100))
     = Ok [(5, [PFormat4 (0 + 1 * (5 - 0))%Q; PInt 100])]
  /\ rows_of_sample overflowing_power true overlapping_table
       (mkSample 5 (Some 5%Q) (PInt 100))
     = Raise OverflowError.
Proof.
  assert (H1 : s_val (mkSample 5 (Some 5%Q) (PInt 100)) = Some 5%Q)
    by reflexivity.
  assert (H2 : true = true -> ~ (5 < -999 # 1)%Q)
    by (intros _ H; vm_compute in H; discriminate H).
  assert (H3 : in_table overlapping_table 0)
    by (unfold in_table; simpl; repeat split; lia).
  assert (H4 : segment_matches overlapping_table 0 5 5%Q)
    by (unfold segment_matches, Qle, Qlt; simpl; repeat split; lia).
  assert (H5 : segment_matches overlapping_table 1 5 5%Q)
    by (unfold segment_matches, Qle, Qlt; simpl; repeat split; lia).
  assert (H6 : forall o', (o' < 0)%nat ->
                 ~ segment_matches overlapping_table o' 5 5%Q)
    by (intros o' Ho'; lia).
  assert (H7 : (0 <= 5 - 0)%Q) by (vm_compute; discriminate).
  assert (H8 : ~ ((5 - 0 == 0)%Q /\ (1 < 0)%Q))
    by (intros [_ H]; vm_compute in H; discriminate H).
  split; [exact H1|]. split; [exact H3|]. split; [exact H4|].
  split; [exact H5|]. split.
  - exact (proj1 (proj2 (proj2
             (first_matching_segment_wins first_power true overlapping_table
                (mkSample 5 (Some 5%Q) (PInt 100)) 5%Q 0 H1 H2 H3 H4 H6))
             H7 H8) (5 - 0)%Q eq_refl).
  - exact (proj2 (proj2 (proj2
             (first_matching_segment_wins overflowing_power true
                overlapping_table
                (mkSample 5 (Some 5%Q) (PInt 100)) 5%Q 0 H1 H2 H3 H4 H6))
             H7 H8) OverflowError eq_refl).
Defined.

Lemma segments_empty (fpow : Q -> Q -> result Q) (qi : bool) (h : hqCurves)
  (rec : sample) :
  hq_from h = [] ->
  segments fpow qi h rec (seq 0 (List.length (hq_from h))) = Ok [].
Proof.
  intros H. now rewrite H.
Qed.

Lemma flat_map_length_le {A B : Type} (f : A -> list B) (l : list A) :
  (forall x, List.length (f x) <= 1)%nat ->
  (List.length (flat_map f l) <= List.length l)%nat.
Proof.
  intros Hf. induction l as [|x l IH]; simpl; [lia|].
  rewrite length_app. specialize (Hf x). lia.
Qed.

Lemma flat_map_length_lt {A B : Type} (f : A -> list B) (l : list A) (a : A) :
  (forall x, List.length (f x) <= 1)%nat ->
  In a l -> f a = [] ->
  (List.length (flat_map f l) < List.length l)%nat.
Proof.
  intros Hf. induction l as [|x l IH]; simpl; [tauto|].
  intros [->|Hin] Ha; rewrite length_app.
  - rewrite Ha. simpl. pose proof (flat_map_length_le f l Hf). lia.
  - specialize (Hf x). specialize (IH Hin Ha). lia.
Qed.

(** ** C10 *)

(** C10.  Empty table.  When the table has no segment, the loop over the
    segments does not run: a sample with a present value not below
    [-999.0] gives no row at all, the output holds only the rows of the
    rejected samples under quality reporting and nothing without it, and
    it is strictly shorter than the input as soon as one sample is not
    rejected. *)
Theorem empty_table_drops_rows :
  forall (fpow : Q -> Q -> result Q) (qi : bool) (h : hqCurves) (data : list sample),
    hq_from h = [] ->
    (forall rec v, s_val rec = Some v -> ~ (v < -999 # 1)%Q ->
       rows_of_sample fpow qi h rec = Ok [])
    /\ transform fpow qi h data
       = Ok (flat_map
               (fun rec =>
                  if qi && rejected rec
                  then [(s_time rec, [PFloat (-9999 # 10); PInt 110])]
                  else [])
               data)
    /\ (forall rec, In rec data -> rejected rec = false ->
          exists out,
            transform fpow qi h data = Ok out
            /\ (List.length out < List.length data)%nat).
Proof.
  intros fpow qi h data Hempty.
  assert (Hrow : forall rec,
             rows_of_sample fpow qi h rec
             = Ok (if qi && rejected rec
                   then [(s_time rec, [PFloat (-9999 # 10); PInt 110])]
                   else [])).
  { intros rec. unfold rows_of_sample, rejected.
    rewrite (segments_empty fpow qi h rec Hempty).
    destruct qi; [|reflexivity]. cbn [andb].
    destruct (s_val rec) as [v|]; [|reflexivity].
    now destruct (Qlt_bool v (-999 # 1)). }
  assert (Hall : transform fpow qi h data
                 = Ok (flat_map
                         (fun rec =>
                            if qi && rejected rec
                            then [(s_time rec, [PFloat (-9999 # 10); PInt 110])]
                            else [])
                         data)).
  { induction data as [|rec data IH]; [reflexivity|].
    cbn [transform flat_map]. rewrite Hrow, IH. reflexivity. }
  split; [|split; [exact Hall|]].
  - intros rec v Hv Hlow. rewrite Hrow. unfold rejected. rewrite Hv.
    rewrite Qlt_bool_false by exact Hlow. now rewrite andb_false_r.
  - intros rec Hin Hrej. eexists. split; [exact Hall|].
    apply flat_map_length_lt with (a := rec); auto.
    + intros x. destruct (qi && rejected x); simpl; lia.
    + rewrite Hrej. now rewrite andb_false_r.
Qed.

Lemma empty_table_drops_rows_witness :
  hq_from no_curves = []
  /\ setDischargeCurves hq_path (Some [[0; 100]]) (Some [header])
     = Ok no_curves
  /\ execute first_power hq_path (Some [[0; 100]]) (Some [header]) true
       [mkSample 5 (Some 5%Q) (PInt 100);
        mkSample 6 (Some (-1000 # 1)) (PInt 100)]
     = Ok [(6, [PFloat (-9999 # 10); PInt 110])]
  /\ execute first_power hq_path (Some [[0; 100]]) (Some [header]) false
       [mkSample 5 (Some 5%Q) (PInt 100);
        mkSample 6 (Some (-1000 # 1)) (PInt 100)]
     = Ok [].
Proof.
  assert (H : hq_from no_curves = []) by reflexivity.
  split; [exact H|]. split; [reflexivity|].
  unfold execute.
  change (setDischargeCurves hq_path (Some [[0; 100]]) (Some [header]))
    with (Ok no_curves).
  cbn [bind].
  split.
  - destruct (empty_table_drops_rows first_power true no_curves
                [mkSample 5 (Some 5%Q) (PInt 100);
                 mkSample 6 (Some (-1000 # 1)) (PInt 100)] H)
      as (_ & Hout & _).
    rewrite Hout. reflexivity.
  - destruct (empty_table_drops_rows first_power false no_curves
                [mkSample 5 (Some 5%Q) (PInt 100);
                 mkSample 6 (Some (-1000 # 1)) (PInt 100)] H)
      as (_ & Hout & _).
    rewrite Hout. reflexivity.
Defined.

(** On a file whose lines start with the two instants of a segment in
    order, the test of line 578 accepts every line, whatever the window. *)
Lemma line_selected_always (f t p0 p1 : Z) (rest : list cell) :
  f <= t -> p0 <= p1 ->
  line_selected (CTime f :: CTime t :: rest) p0 (Some p1) = Ok true.
Proof.
  intros Hft Hp. unfold line_selected. cbn [index nth_error parse_datetime bind].
  destruct (Z.gtb_spec t p0); [reflexivity|].
  destruct (Z.leb_spec f p1); [reflexivity|lia].
Qed.

(** ** C7 *)

(** C7, evaluated on the code.  For the window from 10 to 20 the segment
    valid from 30 to 40, which does not overlap it, is loaded; and for a
    request without a window the loading stops with a [TypeError] on the
    minimum of two [None] values, for every file. *)
Theorem window_loads_segment_outside :
  forall hqFile : string,
    setDischargeCurves hqFile (Some [[10; 20]])
      (Some [header; segment_line 30 40 0 10 1 0])
    = Ok (mkCurves [30] [40] [0%Q] [10%Q] [1%Q] [0%Q] [1%Q] [0%Q])
    /\ forall file, setDischargeCurves hqFile None file = Raise TypeError.
Proof.
  intros hqFile. split; reflexivity.
Qed.

End HQProofs.

(** * Profile composition *)

Section StableSortFacts.

Variable A : Type.
Variable leb : A -> A -> bool.
Hypothesis leb_total : forall a b, leb a b = true \/ leb b a = true.
Hypothesis leb_trans :
  forall a b c, leb a b = true -> leb b c = true -> leb a c = true.

(** The order the list had before the sort. *)
Variable before : A -> A -> Prop.

Lemma insert_sorted_perm (x : A) (l : list A) :
  Permutation (x :: l) (insert_sorted leb x l).
Proof.
  induction l as [|y l IH]; simpl; [reflexivity|].
  destruct (leb x y); [reflexivity|].
  rewrite perm_swap. now apply perm_skip.
Qed.

Lemma stable_sort_perm (l : list A) : Permutation l (stable_sort leb l).
Proof.
  induction l as [|x l IH]; simpl; [reflexivity|].
  rewrite <- insert_sorted_perm. now apply perm_skip.
Qed.

Lemma insert_sorted_keeps (x : A) (s : list A) :
  StronglySorted (sorted_then_before leb before) s ->
  Forall (before x) s ->
  StronglySorted (sorted_then_before leb before) (insert_sorted leb x s).
Proof.
  induction 1 as [|y s Hs IH Hy]; intros Hx; simpl.
  - repeat constructor.
  - inversion Hx as [|? ? Hxy Hxs]; subst.
    destruct (leb x y) eqn:E.
    + constructor; [now constructor|].
      constructor; [split; auto|].
      apply Forall_forall. intros z Hz.
      pose proof (proj1 (Forall_forall _ _) Hy z Hz) as [Hyz _].
      pose proof (proj1 (Forall_forall _ _) Hxs z Hz) as Hxz.
      split; [eapply leb_trans; eauto|auto].
    + constructor; [now apply IH|].
      apply (Permutation_Forall (insert_sorted_perm x s)).
      constructor; [|exact Hy].
      split; [destruct (leb_total x y); congruence|congruence].
Qed.

(** A stable sort of a list that was in the order [before] is in the
    order of the sort, with ties in the order [before]. *)
Lemma stable_sort_keeps (l : list A) :
  StronglySorted before l ->
  StronglySorted (sorted_then_before leb before) (stable_sort leb l).
Proof.
  induction 1 as [|x l Hl IH Hx]; simpl; [constructor|].
  apply insert_sorted_keeps; [exact IH|].
  now apply (Permutation_Forall (stable_sort_perm l)).
Qed.

End StableSortFacts.

Module ProfileProofs.
Import Profile ProfileSpec.

Lemma any_list_unordered {A : Type} (l : list A) :
  StronglySorted (fun _ _ => True) l.
Proof.
  induction l; constructor; auto. apply Forall_forall. auto.
Qed.

Lemma StronglySorted_impl {A : Type} (R S : A -> A -> Prop) (l : list A) :
  (forall a b, R a b -> S a b) -> StronglySorted R l -> StronglySorted S l.
Proof.
  intros HRS. induction 1; constructor; auto.
  eapply Forall_impl; [|eassumption]. auto.
Qed.

Lemma sort_by_time_sorted (data : list row) :
  StronglySorted (fun a b => time a <= time b) (sort_by_time data).
Proof.
  unfold sort_by_time.
  eapply StronglySorted_impl;
    [|apply (stable_sort_keeps row (fun a b => time a <=? time b))
        with (before := fun _ _ => True)].
  - intros a b [H _]. now apply Z.leb_le.
  - intros a b. destruct (Z.leb_spec (time a) (time b)); [now left|].
    right. apply Z.leb_le. lia.
  - intros a b c H1 H2. apply Z.leb_le in H1, H2. apply Z.leb_le. lia.
  - apply any_list_unordered.
Qed.

Lemma sort_by_column_desc_order (i : nat) (data out : list row) :
  StronglySorted (fun a b => time a <= time b) data ->
  sort_by_column_desc i data = Ok out ->
  Permutation data out /\ StronglySorted (column_then_time i) out.
Proof.
  intros Hs H. unfold sort_by_column_desc in H.
  destruct (forallb _ data); [|discriminate]. inversion H; subst out.
  split; [apply stable_sort_perm|].
  eapply StronglySorted_impl;
    [|apply (stable_sort_keeps row
               (fun a b => Qle_bool (key i b) (key i a)))
        with (before := fun a b => time a <= time b)].
  - intros a b [H1 H2]. apply Qle_bool_iff in H1. split; [exact H1|].
    intros Hab. apply H2. now apply Qle_bool_iff.
  - intros a b. destruct (Qlt_le_dec (key i a) (key i b)) as [Hlt|Hle].
    + right. apply Qle_bool_iff. now apply Qlt_le_weak.
    + left. now apply Qle_bool_iff.
  - intros a b c H1 H2. apply Qle_bool_iff in H1, H2. apply Qle_bool_iff.
    eapply Qle_trans; eauto.
  - exact Hs.
Qed.

(** ** C8 *)

(** C8 as stated fails: without quality reporting, the reading of the
    lower member at instant 2 comes out before the reading of the upper
    member at instant 1, so the output is not in timestamp order. *)
Lemma profile_order_counterexample :
  execute false 0 3 [upper_member; lower_member]
  = Ok [with_depth false (depth 0 lower_member) (mkRow 2 [11%Q; 60%Q]);
        with_depth false (depth 0 upper_member) (mkRow 1 [10%Q; 50%Q])]
  /\ ~ StronglySorted (time_then_column (sort_column false))
         [with_depth false (depth 0 lower_member) (mkRow 2 [11%Q; 60%Q]);
          with_depth false (depth 0 upper_member) (mkRow 1 [10%Q; 50%Q])].
Proof.
  split; [vm_compute; reflexivity|].
  intros H. apply StronglySorted_inv in H as [_ H].
  inversion H as [|? ? Hab _]; subst.
  destruct Hab as [Hlt|[Heq _]]; simpl in *; lia.
Qed.

(** C8, amended.  Whenever the composition returns, its rows are the
    concatenated member rows, ordered by the sort column (index 4 under
    quality reporting, index 3 otherwise) descending, and rows that tie on
    that column are in timestamp order; and it does return when there is
    at least one row and every row has [n_obs] cells, [n_obs] reaching
    the sort column. *)
Theorem profile_order :
  forall (qi : bool) (coords_z : Q) (n_obs : nat) (procs_info : list member),
    (forall out,
       execute qi coords_z n_obs procs_info = Ok out ->
       Permutation (gather qi coords_z procs_info) out
       /\ StronglySorted (column_then_time (sort_column qi)) out)
    /\ (gather qi coords_z procs_info <> [] ->
        (sort_column qi <= n_obs)%nat ->
        Forall (fun r => List.length (cells r) = n_obs)
          (gather qi coords_z procs_info) ->
        exists out, execute qi coords_z n_obs procs_info = Ok out).
Proof.
  intros qi coords_z n_obs procs_info.
  set (data := gather qi coords_z procs_info).
  assert (Hperm : Permutation data (sort_by_time data))
    by apply stable_sort_perm.
  split.
  - intros out H. unfold execute in H. fold data in H.
    change (if qi then 4%nat else 3%nat) with (sort_column qi) in H.
    destruct (sort_by_column_desc (sort_column qi) (sort_by_time data))
      as [sorted|e] eqn:E; [|discriminate].
    cbn [bind] in H.
    destruct (index sorted 0) as [first|e]; [|discriminate].
    cbn [bind] in H.
    destruct (n_obs =? List.length (cells first))%nat; [|discriminate].
    inversion H; subst out.
    destruct (sort_by_column_desc_order _ _ _ (sort_by_time_sorted data) E)
      as [Hp Hs].
    split; [now rewrite Hperm|exact Hs].
  - intros Hne Hcol Hwide. unfold execute. fold data.
    change (if qi then 4%nat else 3%nat) with (sort_column qi).
    assert (Hwide' : Forall (fun r => List.length (cells r) = n_obs)
                       (sort_by_time data))
      by (now apply (Permutation_Forall Hperm)).
    unfold sort_by_column_desc.
    assert (Hall : forallb
                     (fun r => (sort_column qi - 1 <? List.length (cells r))%nat)
                     (sort_by_time data) = true).
    { apply forallb_forall. intros r Hr.
      pose proof (proj1 (Forall_forall _ _) Hwide' r Hr) as Hl.
      apply Nat.ltb_lt. unfold sort_column in *. destruct qi; lia. }
    rewrite Hall. cbn [bind].
    set (sorted := stable_sort _ (sort_by_time data)).
    assert (Hp2 : Permutation data sorted)
      by (rewrite Hperm at 1; apply stable_sort_perm).
    destruct sorted as [|first rest] eqn:Es.
    + apply Permutation_sym, Permutation_nil in Hp2. contradiction.
    + cbn [index nth_error bind].
      assert (Hf : List.length (cells first) = n_obs).
      { pose proof (Permutation_Forall Hp2 Hwide) as Hw.
        now inversion Hw. }
      rewrite Hf, Nat.eqb_refl. eexists. reflexivity.
Qed.

Lemma profile_order_witness :
  execute false 0 3 [upper_member; lower_member]
  = Ok [with_depth false (depth 0 lower_member) (mkRow 2 [11%Q; 60%Q]);
        with_depth false (depth 0 upper_member) (mkRow 1 [10%Q; 50%Q])]
  /\ StronglySorted (column_then_time (sort_column false))
       [with_depth false (depth 0 lower_member) (mkRow 2 [11%Q; 60%Q]);
        with_depth false (depth 0 upper_member) (mkRow 1 [10%Q; 50%Q])].
Proof.
  assert (H : execute false 0 3 [upper_member; lower_member]
              = Ok [with_depth false (depth 0 lower_member)
                      (mkRow 2 [11%Q; 60%Q]);
                    with_depth false (depth 0 upper_member)
                      (mkRow 1 [10%Q; 50%Q])])
    by (vm_compute; reflexivity).
  split; [exact H|].
  destruct (profile_order false 0 3 [upper_member; lower_member])
    as [Horder _].
  exact (proj2 (Horder _ H)).
Defined.

End ProfileProofs.

(** * Temporal aggregation: further properties *)

Module AggregatorMore.
Import Aggregator AggregatorSpec AggregatorProofs AggregatorExamples.














Lemma pop0_app (pre : list row) tmp data' :
  exists pre2, pop0 (pre ++ tmp :: data') = Ok (pre2 ++ data').
Proof.
  destruct pre as [|p ps].
  - exists []. reflexivity.
  - exists (ps ++ [tmp]). simpl. now rewrite <- app_assoc.
Qed.

(** With an upper edge not after the lower one no sample is taken. *)
Lemma scan_no_bucket (dt dt2 : Z) :
  dt2 <= dt ->
  forall data pre cols,
    exists obs', scan dt dt2 data (pre ++ data) cols = Ok (obs', cols).
Proof.
  intros Hd. induction data as [|tmp data IH]; intros pre cols.
  - eexists. reflexivity.
  - cbn [scan].
    destruct (Z.ltb_spec dt (r_time tmp)) as [H1|H1];
      [destruct (Z.leb_spec (r_time tmp) dt2) as [H2|H2]; [lia|]|];
      cbn [andb].
    + destruct (Z.gtb_spec dt (r_time tmp)); [lia|].
      destruct (Z.ltb_spec dt2 (r_time tmp)); [|lia].
      eexists. reflexivity.
    + destruct (Z.gtb_spec dt (r_time tmp)).
      * destruct (pop0_app pre tmp data) as (pre2 & Hpop). rewrite Hpop.
        cbn [bind]. apply IH.
      * destruct (Z.ltb_spec dt2 (r_time tmp)); [eexists; reflexivity|].
        specialize (IH (pre ++ [tmp]) cols).
        now rewrite <- app_assoc in IH.
Qed.

Lemma bucketing_diverges (end_ : Z) (fields : nat) :
  forall fuel dt obs res,
    dt < end_ -> bucketing fuel dt end_ 0 fields obs res = None.
Proof.
  induction fuel as [|fuel IH]; intros dt obs res Hlt; [reflexivity|].
  cbn [bucketing]. destruct (Z.ltb_spec dt end_); [|lia].
  destruct (scan_no_bucket dt (dt + 0) ltac:(lia) obs [] (repeat [] fields))
    as (obs' & Hscan).
  cbn [app] in Hscan. rewrite Hscan. apply IH. lia.
Qed.

(** X: an interval of zero.  When [begin < end] and the interval is zero,
    the lower edge never moves and the loop over the buckets never ends,
    whatever the series: no amount of steps gives a result or an error. *)
Theorem zero_duration_never_returns :
  forall (f : aggregate) (begin_ end_ : Z) (op : list string)
         (data : list row) (fuel : nat),
    begin_ < end_ ->
    applyFunction fuel f begin_ end_ 0 op data = None.
Proof.
  intros f begin_ end_ op data fuel Hlt. unfold applyFunction.
  now rewrite (bucketing_diverges end_ (List.length op) fuel begin_ data []
                 Hlt).
Qed.











Lemma zero_duration_never_returns_witness :
  0 < 7200
  /\ applyFunction 1000 hourly_request 0 7200 0 ["urn:stage"] hourly_series
     = None.
Proof.
  assert (H2 : 0 < 7200) by lia.
  split; [exact H2|].
  exact (zero_duration_never_returns hourly_request 0 7200
           ["urn:stage"] hourly_series 1000 H2).
Defined.



End AggregatorMore.

(** * Sampling time: further properties *)

Module SamplingTimeMore.
Import SamplingTime SamplingTimeSpec SamplingTimeProofs SamplingTimeExamples.

Lemma flat_map_filter {A B : Type} (f : A -> list B) (g : A -> bool)
  (l : list A) :
  flat_map f (filter g l) = flat_map (fun x => if g x then f x else []) l.
Proof.
  induction l as [|x l IH]; [reflexivity|]. cbn [filter flat_map].
  destruct (g x); cbn [flat_map app]; now rewrite IH.
Qed.

Lemma where_rows_single (p : string) (db : catalog) :
  where_rows db [p]
  = flat_map interval_of (filter (fun r => String.eqb (name_prc r) p) db).
Proof.
  unfold where_rows. rewrite !flat_map_filter. apply flat_map_ext.
  intros r. unfold defined_and_named, interval_of. cbn [existsb].
  rewrite orb_false_r.
  destruct (stime_prc r), (etime_prc r), (String.eqb (name_prc r) p);
    reflexivity.
Qed.

(** The walk over dependencies that are all leaves keeps them all. *)
Lemma cascade_leaves (db : catalog) (plugins : string -> option (list string)) :
  forall l walked acc fuel,
    Forall (leaf db) l ->
    (List.length l < fuel)%nat ->
    cascade fuel db plugins (walked ++ l) (List.length walked) acc
    = Some (Ok (acc ++ l)).
Proof.
  induction l as [|x l IH]; intros walked acc fuel Hleaf Hfuel;
    (destruct fuel as [|fuel]; [simpl in Hfuel; lia|]); cbn [cascade].
  - rewrite app_nil_r.
    replace (nth_error walked (List.length walked)) with (@None string)
      by (symmetry; apply nth_error_None; lia).
    now rewrite app_nil_r.
  - rewrite nth_error_app2, Nat.sub_diag by lia. cbn [nth_error].
    inversion Hleaf as [|? ? (oty & tl & Hsel & Hty) Hl]; subst.
    rewrite Hsel, Hty.
    replace (walked ++ x :: l) with ((walked ++ [x]) ++ l)
      by (now rewrite <- app_assoc).
    replace (S (List.length walked)) with (List.length (walked ++ [x]))
      by (rewrite length_app; simpl; lia).
    rewrite IH; [|exact Hl|simpl in Hfuel; lia].
    now rewrite <- app_assoc.
Qed.

(** X: one measuring dependency.  When the only declared dependency is a
    procedure that the catalog holds once and that is not virtual, the
    resolved sampling time is its declared interval if both bounds are
    defined, and the undefined interval as soon as one bound is missing. *)
Theorem single_dependency_interval :
  forall (fuel : nat) (db : catalog) (plugins : string -> option (list string))
         (p : string) (r : procedure),
    (1 < fuel)%nat ->
    leaf db p ->
    filter (fun x => String.eqb (name_prc x) p) db = [r] ->
    setSampligTime fuel db plugins [p]
    = Some (Ok (match stime_prc r, etime_prc r with
                | Some s, Some e => (Some s, Some e)
                | _, _ => (None, None)
                end)).
Proof.
  intros fuel db plugins p r Hfuel Hleaf Hone. unfold setSampligTime.
  cbn [List.length Nat.eqb].
  pose proof (cascade_leaves db plugins [p] [] [] fuel
                ltac:(constructor; [exact Hleaf|constructor])
                ltac:(simpl; lia)) as Hc.
  cbn [app List.length] in Hc. rewrite Hc.
  cbn [remove_duplicates existsb]. rewrite procedures_not_found_empty.
  cbn [bind List.length Nat.ltb Nat.leb index nth_error].
  unfold select_interval. rewrite where_rows_single, Hone.
  cbn [flat_map app]. unfold interval_of.
  destruct (stime_prc r), (etime_prc r); reflexivity.
Qed.

Lemma select_interval_rows (db : catalog) (p : string)
  (row : option Z * option Z) :
  In row (select_interval db p) ->
  exists r, In r db
            /\ stime_prc r = fst row /\ etime_prc r = snd row
            /\ fst row <> None /\ snd row <> None.
Proof.
  unfold select_interval. intros H. apply in_map_iff in H as (g & <- & Hg).
  apply where_rows_In in Hg as (r & Hr & _ & Hs & He).
  exists r. cbn [fst snd]. repeat split; auto; discriminate.
Qed.

(** X: never a mix of two dependencies.  Whatever is declared, a sampling
    time that [setSampligTime] resolves is either undefined on both sides
    or the pair (start, end) of one single row of the catalog, both
    defined: the start of one dependency is never returned with the end
    of another. *)
Theorem resolved_interval_is_one_row :
  forall (fuel : nat) (db : catalog) (plugins : string -> option (list string))
         (declared : list string) (a b : option Z),
    setSampligTime fuel db plugins declared = Some (Ok (a, b)) ->
    (a = None /\ b = None)
    \/ exists r, In r db /\ stime_prc r = a /\ etime_prc r = b
                 /\ a <> None /\ b <> None.
Proof.
  intros fuel db plugins declared a b H. unfold setSampligTime in H.
  destruct (List.length declared =? 0)%nat;
    [inversion H; subst; left; split; reflexivity|].
  destruct (cascade fuel db plugins declared 0 []) as [[leaves|e]|];
    try discriminate.
  rewrite procedures_not_found_empty in H. cbn [bind] in H.
  change (0 <? List.length (@nil string))%nat with false in H.
  cbv iota in H.
  set (procedures := remove_duplicates leaves []) in *.
  destruct (1 <? List.length procedures)%nat.
  - cbn [bind] in H.
    destruct (select_min_max db procedures) as [|row rows] eqn:E.
    + inversion H; subst. left. split; reflexivity.
    + inversion H; subst. right.
      destruct (select_min_max_rows db procedures row) as (r & Hr & _ & Hs & He & Ha & Hb).
      { rewrite E. now left. }
      exists r. auto.
  - destruct (index procedures 0) as [p|e]; [|discriminate].
    cbn [bind] in H.
    destruct (select_interval db p) as [|row rows] eqn:E.
    + inversion H; subst. left. split; reflexivity.
    + inversion H; subst. right.
      destruct (select_interval_rows db p row) as (r & Hr & Hs & He & Ha & Hb).
      { rewrite E. now left. }
      exists r. auto.
Qed.

(** X: cascading.  A virtual dependency whose file declares measuring
    procedures stands for them: resolving the sampling time over the
    virtual procedure alone gives what resolving over its declared
    dependencies gives. *)
Theorem cascading_is_transparent :
  forall (fuel : nat) (db : catalog) (plugins : string -> option (list string))
         (v : string) (deps : list string),
    virtual db v ->
    plugins v = Some deps ->
    deps <> [] ->
    Forall (leaf db) deps ->
    (List.length deps + 1 < fuel)%nat ->
    setSampligTime fuel db plugins [v] = setSampligTime fuel db plugins deps
    /\ setSampligTime fuel db plugins [v] <> None.
Proof.
  intros fuel db plugins v deps (tl & Hv) Hp Hne Hleaf Hfuel.
  assert (Hdeps : cascade fuel db plugins deps 0 [] = Some (Ok deps)).
  { apply (cascade_leaves db plugins deps [] [] fuel Hleaf). lia. }
  assert (Hvirt : cascade fuel db plugins [v] 0 [] = Some (Ok deps)).
  { destruct fuel as [|fuel]; [lia|]. cbn [cascade nth_error].
    rewrite Hv. cbn [String.eqb Ascii.eqb Bool.eqb]. rewrite Hp.
    destruct deps as [|x deps']; [congruence|].
    cbn [List.length Nat.ltb Nat.leb].
    apply (cascade_leaves db plugins (x :: deps') [v] [] fuel Hleaf).
    simpl in *. lia. }
  unfold setSampligTime. rewrite Hvirt, Hdeps.
  destruct deps as [|x deps']; [congruence|].
  cbn [List.length Nat.eqb]. split; [reflexivity|discriminate].
Qed.

(** The walk never ends inside a closed set of virtual procedures. *)
Lemma cascade_closed_set (db : catalog)
  (plugins : string -> option (list string)) (S : string -> Prop) :
  closed_virtual_set db plugins S ->
  forall fuel tmp i acc,
    Forall S tmp -> (i < List.length tmp)%nat ->
    cascade fuel db plugins tmp i acc = None.
Proof.
  intros Hclosed. induction fuel as [|fuel IH]; intros tmp i acc Hall Hi;
    [reflexivity|].
  cbn [cascade].
  destruct (nth_error tmp i) as [p|] eqn:Hp;
    [|apply nth_error_None in Hp; lia].
  assert (HS : S p)
    by (apply (proj1 (Forall_forall _ _) Hall); eapply nth_error_In; eauto).
  destruct (Hclosed p HS) as ((tl & Hv) & deps & Hdeps & Hne & Hin).
  rewrite Hv. cbn [String.eqb Ascii.eqb Bool.eqb]. rewrite Hdeps.
  destruct deps as [|x deps']; [congruence|].
  cbn [List.length Nat.ltb Nat.leb].
  apply IH.
  - apply Forall_app. split; assumption.
  - rewrite length_app. simpl. lia.
Qed.

(** X: cyclic declarations.  When the declared dependencies lie in a set of
    virtual procedures that is closed under dependency (a procedure that
    depends on itself, two that depend on each other, ...), resolution
    never returns: no amount of steps gives a result or an error. *)
Theorem cyclic_dependencies_never_return :
  forall (db : catalog) (plugins : string -> option (list string))
         (S : string -> Prop) (declared : list string) (fuel : nat),
    closed_virtual_set db plugins S ->
    declared <> [] ->
    Forall S declared ->
    setSampligTime fuel db plugins declared = None.
Proof.
  intros db plugins S declared fuel Hclosed Hne Hall. unfold setSampligTime.
  destruct declared as [|p declared']; [congruence|].
  cbn [List.length Nat.eqb].
  rewrite (cascade_closed_set db plugins S Hclosed fuel (p :: declared') 0 []
             Hall ltac:(simpl; lia)).
  reflexivity.
Qed.

(** The walk over virtual procedures that bring no dependency keeps none. *)
Lemma cascade_hollow (db : catalog) (plugins : string -> option (list string)) :
  forall l walked acc fuel,
    Forall (hollow db plugins) l ->
    (List.length l < fuel)%nat ->
    cascade fuel db plugins (walked ++ l) (List.length walked) acc
    = Some (Ok acc).
Proof.
  induction l as [|x l IH]; intros walked acc fuel Hh Hfuel;
    (destruct fuel as [|fuel]; [simpl in Hfuel; lia|]); cbn [cascade].
  - rewrite app_nil_r.
    replace (nth_error walked (List.length walked)) with (@None string)
      by (symmetry; apply nth_error_None; lia).
    reflexivity.
  - rewrite nth_error_app2, Nat.sub_diag by lia. cbn [nth_error].
    inversion Hh as [|? ? ((tl & Hv) & Hp) Hl]; subst.
    rewrite Hv. cbn [String.eqb Ascii.eqb Bool.eqb].
    replace (walked ++ x :: l) with ((walked ++ [x]) ++ l)
      by (now rewrite <- app_assoc).
    replace (S (List.length walked)) with (List.length (walked ++ [x]))
      by (rewrite length_app; simpl; lia).
    destruct Hp as [Hp|Hp]; rewrite Hp; cbn [List.length Nat.ltb Nat.leb];
      apply IH; auto; simpl in Hfuel; lia.
Qed.

(** X: no leaf at all.  When every declared dependency is a virtual
    procedure without a file, or with a file that declares nothing, no
    measuring procedure is left and resolution stops with the
    [IndexError] of [procedures[0]] at line 204. *)
Theorem no_leaf_is_an_index_error :
  forall (fuel : nat) (db : catalog) (plugins : string -> option (list string))
         (declared : list string),
    declared <> [] ->
    Forall (hollow db plugins) declared ->
    (List.length declared < fuel)%nat ->
    setSampligTime fuel db plugins declared = Some (Raise IndexError).
Proof.
  intros fuel db plugins declared Hne Hh Hfuel. unfold setSampligTime.
  destruct declared as [|p declared']; [congruence|].
  cbn [List.length Nat.eqb].
  pose proof (cascade_hollow db plugins (p :: declared') [] [] fuel Hh Hfuel)
    as Hc.
  cbn [app List.length] in Hc. rewrite Hc. reflexivity.
Qed.

Lemma leaf_A : leaf catalog_AB "A".
Proof.
  exists "insitu-fixed-point", []. split; reflexivity.
Qed.

Lemma single_dependency_interval_witness :
  (1 < 2)%nat
  /\ leaf catalog_AB "A"
  /\ filter (fun x => String.eqb (name_prc x) "A") catalog_AB
     = [mkProcedure "A" (Some "insitu-fixed-point") (Some 1) (Some 5)]
  /\ setSampligTime 2 catalog_AB no_plugins ["A"] = Some (Ok (Some 1, Some 5)).
Proof.
  assert (H1 : (1 < 2)%nat) by lia.
  pose proof leaf_A as H2.
  assert (H3 : filter (fun x => String.eqb (name_prc x) "A") catalog_AB
               = [mkProcedure "A" (Some "insitu-fixed-point") (Some 1) (Some 5)])
    by reflexivity.
  split; [exact H1|]. split; [exact H2|]. split; [exact H3|].
  exact (single_dependency_interval 2 catalog_AB no_plugins "A" _ H1 H2 H3).
Defined.

Lemma resolved_interval_is_one_row_witness :
  setSampligTime 3 catalog_AB no_plugins ["A"; "B"]
  = Some (Ok (Some 1, Some 5))
  /\ ((Some 1 = None /\ Some 5 = None)
      \/ exists r, In r catalog_AB /\ stime_prc r = Some 1
                   /\ etime_prc r = Some 5
                   /\ Some 1 <> None /\ Some 5 <> None).
Proof.
  assert (H : setSampligTime 3 catalog_AB no_plugins ["A"; "B"]
              = Some (Ok (Some 1, Some 5))) by reflexivity.
  split; [exact H|].
  exact (resolved_interval_is_one_row 3 catalog_AB no_plugins ["A"; "B"]
           (Some 1) (Some 5) H).
Defined.

Lemma leaf_A_in_V : leaf catalog_V "A".
Proof.
  exists "insitu-fixed-point", []. split; reflexivity.
Qed.

Lemma cascading_is_transparent_witness :
  virtual catalog_V "V"
  /\ plugins_V "V" = Some ["A"]
  /\ Forall (leaf catalog_V) ["A"]
  /\ setSampligTime 3 catalog_V plugins_V ["V"]
     = setSampligTime 3 catalog_V plugins_V ["A"].
Proof.
  assert (H1 : virtual catalog_V "V") by (exists []; reflexivity).
  assert (H2 : plugins_V "V" = Some ["A"]) by reflexivity.
  assert (H3 : ["A"] <> @nil string) by discriminate.
  assert (H4 : Forall (leaf catalog_V) ["A"])
    by (constructor; [exact leaf_A_in_V|constructor]).
  assert (H5 : (List.length ["A"] + 1 < 3)%nat) by (simpl; lia).
  split; [exact H1|]. split; [exact H2|]. split; [exact H4|].
  exact (proj1 (cascading_is_transparent 3 catalog_V plugins_V "V" ["A"]
                  H1 H2 H3 H4 H5)).
Defined.

Lemma loop_is_closed :
  closed_virtual_set catalog_V plugins_loop (fun p => p = "V").
Proof.
  intros p ->. split; [exists []; reflexivity|].
  exists ["V"]. split; [reflexivity|]. split; [discriminate|].
  constructor; [reflexivity|constructor].
Qed.

Lemma cyclic_dependencies_never_return_witness :
  closed_virtual_set catalog_V plugins_loop (fun p => p = "V")
  /\ Forall (fun p => p = "V") ["V"]
  /\ setSampligTime 1000 catalog_V plugins_loop ["V"] = None.
Proof.
  pose proof loop_is_closed as H1.
  assert (H2 : ["V"] <> @nil string) by discriminate.
  assert (H3 : Forall (fun p => p = "V") ["V"])
    by (constructor; [reflexivity|constructor]).
  split; [exact H1|]. split; [exact H3|].
  exact (cyclic_dependencies_never_return catalog_V plugins_loop
           (fun p => p = "V") ["V"] 1000 H1 H2 H3).
Defined.

Lemma no_leaf_is_an_index_error_witness :
  Forall (hollow catalog_V plugins_V) ["W"]
  /\ (List.length ["W"] < 2)%nat
  /\ setSampligTime 2 catalog_V plugins_V ["W"] = Some (Raise IndexError).
Proof.
  assert (H1 : ["W"] <> @nil string) by discriminate.
  assert (H2 : Forall (hollow catalog_V plugins_V) ["W"]).
  { constructor; [|constructor]. split; [exists []; reflexivity|].
    left. reflexivity. }
  assert (H3 : (List.length ["W"] < 2)%nat) by (simpl; lia).
  split; [exact H2|]. split; [exact H3|].
  exact (no_leaf_is_an_index_error 2 catalog_V plugins_V ["W"] H1 H2 H3).
Defined.

End SamplingTimeMore.

(** * The rating-curve transform: further properties *)

Module HQMore.
Import HQ HQSpec HQProofs HQExamples.

Lemma head_index_missing (name : string) (head : list cell) :
  ~ In (CText name) head -> head_index name head = Raise ValueError.
Proof.
  induction head as [|c head IH]; intros H; [reflexivity|].
  cbn [head_index].
  assert (Hc : match c with CText s => String.eqb s name | _ => false end
               = false).
  { destruct c as [t|q|s]; try reflexivity.
    destruct (String.eqb_spec s name) as [->|]; [|reflexivity].
    exfalso. apply H. now left. }
  rewrite Hc, IH; [reflexivity|]. intros Hin. apply H. now right.
Qed.

(** [list.index] fails with a [ValueError] only. *)
Lemma head_index_error (name : string) (head : list cell) (e : exn) :
  head_index name head = Raise e -> e = ValueError.
Proof.
  induction head as [|c head IH]; cbn [head_index]; intros H.
  - now inversion H.
  - destruct (match c with CText s => String.eqb s name | _ => false end);
      [discriminate|].
    destruct (head_index name head) as [i|e']; [discriminate|].
    cbn [bind] in H. inversion H; subst. now apply IH.
Qed.

Lemma header_positions_missing (hqFile name : string) (head : list cell) :
  In name required_columns ->
  ~ In (CText name) head ->
  header_positions hqFile head
  = Raise (PyExceptionFmt header_error [AText hqFile; ACells head]
             ValueError).
Proof.
  intros Hin Hno. pose proof (head_index_missing name head Hno) as Hraise.
  unfold header_positions.
  destruct (head_index "from" head) eqn:E1;
    [|apply head_index_error in E1; now subst].
  destruct (head_index "to" head) eqn:E2;
    [|apply head_index_error in E2; now subst].
  destruct (head_index "low_val" head) eqn:E3;
    [|apply head_index_error in E3; now subst].
  destruct (head_index "up_val" head) eqn:E4;
    [|apply head_index_error in E4; now subst].
  destruct (head_index "A" head) eqn:E5;
    [|apply head_index_error in E5; now subst].
  destruct (head_index "B" head) eqn:E6;
    [|apply head_index_error in E6; now subst].
  destruct (head_index "C" head) eqn:E7;
    [|apply head_index_error in E7; now subst].
  destruct (head_index "K" head) eqn:E8;
    [|apply head_index_error in E8; now subst].
  exfalso. unfold required_columns in Hin. simpl in Hin.
  destruct Hin as [<-|[<-|[<-|[<-|[<-|[<-|[<-|[<-|[]]]]]]]]]; congruence.
Qed.

(** X: a header without a required column.  When the period of the
    request can be computed and the file can be opened, a header that
    lacks one of the eight column names stops the loading with the header
    error of line 572, whatever the lines of the file are: the message is
    built from the path of the file, the header and the [ValueError] of
    the lookup that failed. *)
Theorem missing_header_column :
  forall (hqFile : string) (eventTime : option (list (list Z)))
         (p0 p1 : option Z)
         (head : list cell) (rest : list (list cell)) (name : string),
    py_min_instants (instants eventTime) = Ok p0 ->
    py_max_instants (instants eventTime) = Ok p1 ->
    In name required_columns ->
    ~ In (CText name) head ->
    setDischargeCurves hqFile eventTime (Some (head :: rest))
    = Raise (PyExceptionFmt
               ("setDischargeCurves: FILE %s ,%s error in header."
                ++ String "010" " %s")
               [AText hqFile; ACells head] ValueError).
Proof.
  intros hqFile eventTime p0 p1 head rest name Hmin Hmax Hin Hno.
  unfold setDischargeCurves. rewrite Hmin, Hmax.
  cbn [bind index nth_error].
  now rewrite (header_positions_missing hqFile name head Hin Hno).
Qed.

Lemma min_from_some (l : list (option Z)) : forall a p,
  min_from (Some a) l = Ok p -> exists m, p = Some m /\ m <= a.
Proof.
  induction l as [|x l IH]; intros a p H; cbn [min_from] in H.
  - inversion H; subst. exists a. split; [reflexivity|lia].
  - destruct x as [b|]; [|discriminate].
    destruct (Z.ltb_spec b a).
    + destruct (IH b p H) as (m & -> & Hm). exists m. split; [reflexivity|lia].
    + apply IH. exact H.
Qed.

Lemma max_from_some (l : list (option Z)) : forall a p,
  max_from (Some a) l = Ok p -> exists m, p = Some m /\ a <= m.
Proof.
  induction l as [|x l IH]; intros a p H; cbn [max_from] in H.
  - inversion H; subst. exists a. split; [reflexivity|lia].
  - destruct x as [b|]; [|discriminate].
    destruct (Z.gtb_spec b a).
    + destruct (IH b p H) as (m & -> & Hm). exists m. split; [reflexivity|lia].
    + apply IH. exact H.
Qed.

Lemma instants_head (eventTime : option (list (list Z))) x l :
  instants eventTime = x :: l ->
  (exists a, x = Some a) \/ (eventTime = None /\ l = [None]).
Proof.
  destruct eventTime as [ts|]; cbn [instants].
  - intros H. left. revert H.
    induction ts as [|t ts IH]; cbn [flat_map]; [discriminate|].
    destruct t as [|a [|b [|c t']]]; cbn [app]; intros H;
      try (inversion H; subst; eexists; reflexivity); now apply IH.
  - intros H. inversion H; subst. right. auto.
Qed.

(** The period of a request: both bounds are instants, in order. *)
Lemma period_defined (eventTime : option (list (list Z))) (p0 p1 : option Z) :
  py_min_instants (instants eventTime) = Ok p0 ->
  py_max_instants (instants eventTime) = Ok p1 ->
  exists b e, p0 = Some b /\ p1 = Some e /\ b <= e.
Proof.
  unfold py_min_instants, py_max_instants.
  destruct (instants eventTime) as [|x l] eqn:E; [discriminate|].
  destruct (instants_head eventTime x l E) as [(a & ->)|(-> & ->)].
  - intros Hmin Hmax.
    destruct (min_from_some l a p0 Hmin) as (b & -> & Hb).
    destruct (max_from_some l a p1 Hmax) as (e & -> & He).
    exists b, e. repeat split; lia.
  - cbn [instants] in E. inversion E; subst. discriminate.
Qed.

Ltac step_append H :=
  match type of H with
  | context [index ?l ?i] =>
      destruct (index l i); cbn [bind run_appends hq_from hq_to hq_low hq_up hq_A hq_B hq_C hq_K]
        in H;
      [|discriminate H]
  | context [parse_datetime ?c] =>
      destruct (parse_datetime c); cbn [bind run_appends hq_from hq_to hq_low hq_up hq_A hq_B hq_C hq_K]
        in H;
      [|discriminate H]
  | context [float ?c] =>
      destruct (float c); cbn [bind run_appends hq_from hq_to hq_low hq_up hq_A hq_B hq_C hq_K]
        in H;
      [|discriminate H]
  end.

(** A line that is appended without an exception adds one entry to each
    of the eight lists. *)
Lemma run_appends_all (p : positions) (line : list cell) (h h' : hqCurves) :
  run_appends (appends p) line h = (h', None) ->
  exists f t lo u a b c k,
    h' = mkCurves (hq_from h ++ [f]) (hq_to h ++ [t]) (hq_low h ++ [lo])
           (hq_up h ++ [u]) (hq_A h ++ [a]) (hq_B h ++ [b])
           (hq_C h ++ [c]) (hq_K h ++ [k]).
Proof.
  intros H. unfold appends in H. cbn [run_appends] in H.
  repeat step_append H.
  cbn [hq_from hq_to hq_low hq_up hq_A hq_B hq_C hq_K] in H.
  inversion H. repeat eexists.
Qed.

Lemma rectangular_append (h : hqCurves) f t lo u a b c k :
  rectangular h ->
  rectangular (mkCurves (hq_from h ++ [f]) (hq_to h ++ [t]) (hq_low h ++ [lo])
                 (hq_up h ++ [u]) (hq_A h ++ [a]) (hq_B h ++ [b])
                 (hq_C h ++ [c]) (hq_K h ++ [k])).
Proof.
  unfold rectangular. cbn [hq_from hq_to hq_low hq_up hq_A hq_B hq_C hq_K].
  rewrite !length_app. cbn [List.length]. intros (H1 & H2 & H3 & H4 & H5 & H6 & H7).
  repeat split; lia.
Qed.

Lemma load_window_rectangular (p : positions) (p0 : Z) (p1 : option Z) :
  forall lines h h',
    rectangular h ->
    load_window p p0 p1 lines h = Ok h' ->
    rectangular h'.
Proof.
  induction lines as [|line lines IH]; intros h h' Hr H; cbn [load_window] in H.
  - now inversion H; subst.
  - destruct (line_selected line p0 p1) as [sel|e]; [|discriminate].
    cbn [bind] in H. destruct sel; [|eapply IH; eauto].
    destruct (run_appends (appends p) line h) as [h1 [e|]] eqn:E;
      [discriminate|].
    apply run_appends_all in E as (f & t & lo & u & a & b & c & k & ->).
    eapply IH; [|exact H]. now apply rectangular_append.
Qed.

(** X: the loaded table is rectangular.  Whenever [setDischargeCurves]
    returns a table, its eight lists have one length: a line is taken
    with all its eight values or the loading fails. *)
Theorem loaded_table_is_rectangular :
  forall (hqFile : string) (eventTime : option (list (list Z)))
         (file : option (list (list cell))) (h : hqCurves),
    setDischargeCurves hqFile eventTime file = Ok h ->
    rectangular h.
Proof.
  intros hqFile eventTime file h H. unfold setDischargeCurves in H.
  destruct (py_min_instants (instants eventTime)) as [p0|e] eqn:Hmin;
    [|discriminate].
  cbn [bind] in H.
  destruct (py_max_instants (instants eventTime)) as [p1|e] eqn:Hmax;
    [|discriminate].
  cbn [bind] in H.
  destruct (period_defined eventTime p0 p1 Hmin Hmax) as (b & e & -> & -> & _).
  destruct file as [lines|]; [|discriminate].
  destruct (index lines 0) as [head|e']; [|discriminate]. cbn [bind] in H.
  destruct (header_positions hqFile head) as [p|e']; [|discriminate].
  cbn [bind] in H.
  eapply load_window_rectangular; [|exact H].
  unfold rectangular, no_curves. cbn. repeat split; reflexivity.
Qed.

Lemma load_window_all (p0 : Z) (p1 : Z) :
  p0 <= p1 ->
  forall (segs : list segment) (h : hqCurves),
    Forall (fun s => seg_from s <= seg_to s) segs ->
    load_window (mkPositions 0 1 2 3 4 5 6 7) p0 (Some p1)
      (map line_of segs) h
    = Ok (mkCurves (hq_from h ++ map seg_from segs) (hq_to h ++ map seg_to segs)
            (hq_low h ++ map seg_low segs) (hq_up h ++ map seg_up segs)
            (hq_A h ++ map seg_A segs) (hq_B h ++ map seg_B segs)
            (hq_C h ++ map seg_C segs) (hq_K h ++ map seg_K segs)).
Proof.
  intros Hp. induction segs as [|s segs IH]; intros h Hwf.
  - cbn [map load_window]. rewrite !app_nil_r. now destruct h.
  - inversion Hwf as [|? ? Hs Hrest]; subst.
    cbn [map load_window]. unfold line_of at 1.
    rewrite (line_selected_always _ _ _ _ _ Hs Hp). cbn [bind].
    unfold line_of at 1. unfold appends.
    cbn [run_appends index nth_error parse_datetime float bind
         fromt tot low up posA posB posC posK
         hq_from hq_to hq_low hq_up hq_A hq_B hq_C hq_K].
    rewrite IH by exact Hrest.
    cbn [hq_from hq_to hq_low hq_up hq_A hq_B hq_C hq_K].
    rewrite <- !app_assoc. reflexivity.
Qed.

(** X: the window takes every line.  For a file with the columns in the
    order of [header] and lines whose validity starts no later than it
    ends, whenever the period of the request can be computed the loaded
    table holds every line of the file, in order and value for value:
    the period of the request excludes none. *)
Theorem window_takes_every_line :
  forall (hqFile : string) (eventTime : option (list (list Z)))
         (p0 p1 : option Z) (segs : list segment),
    py_min_instants (instants eventTime) = Ok p0 ->
    py_max_instants (instants eventTime) = Ok p1 ->
    Forall (fun s => seg_from s <= seg_to s) segs ->
    setDischargeCurves hqFile eventTime (Some (header :: map line_of segs))
    = Ok (table_of segs).
Proof.
  intros hqFile eventTime p0 p1 segs Hmin Hmax Hwf.
  destruct (period_defined eventTime p0 p1 Hmin Hmax) as (b & e & -> & -> & Hbe).
  unfold setDischargeCurves. rewrite Hmin, Hmax.
  cbn [bind index nth_error tl].
  change (header_positions hqFile header)
    with (Ok (mkPositions 0 1 2 3 4 5 6 7)).
  cbn [bind].
  now rewrite (load_window_all b e Hbe segs no_curves Hwf).
Qed.

Lemma rectangular_in_table (h : hqCurves) (o : nat) :
  rectangular h -> (o < List.length (hq_from h))%nat -> in_table h o.
Proof.
  unfold rectangular, in_table.
  intros (H1 & H2 & H3 & H4 & H5 & H6 & H7) Ho. repeat split; lia.
Qed.

Section Rows.

Variable fpow : Q -> Q -> result Q.

Lemma matches_defined (h : hqCurves) (o : nat) (t : Z) (v : Q) :
  in_table h o -> exists b, matches h o t v = Ok b.
Proof.
  intros (Hf & Ht & Hl & Hu & _). unfold matches.
  rewrite (index_nth _ _ 0 Hf), (index_nth _ _ 0 Ht),
    (index_nth _ _ 0%Q Hl), (index_nth _ _ 0%Q Hu). cbn [bind].
  destruct (nth o (hq_from h) 0 <? t); [|eexists; reflexivity].
  destruct (t <=? nth o (hq_to h) 0); [|eexists; reflexivity].
  destruct (Qle_bool (nth o (hq_low h) 0%Q) v); eexists; reflexivity.
Qed.

(** The condition of line 623 holds of the segments that apply only. *)
Lemma matches_applies (h : hqCurves) (o : nat) (t : Z) (v : Q) :
  in_table h o -> matches h o t v = Ok true -> segment_matches h o t v.
Proof.
  intros (Hf & Ht & Hl & Hu & _). unfold matches, segment_matches.
  rewrite (index_nth _ _ 0 Hf), (index_nth _ _ 0 Ht),
    (index_nth _ _ 0%Q Hl), (index_nth _ _ 0%Q Hu). cbn [bind].
  destruct (Z.ltb_spec (nth o (hq_from h) 0) t) as [H1|H1]; [|discriminate].
  destruct (Z.leb_spec t (nth o (hq_to h) 0)) as [H2|H2]; [|discriminate].
  destruct (Qle_bool (nth o (hq_low h) 0%Q) v) eqn:E; [|discriminate].
  apply Qle_bool_iff in E. intros H. inversion H as [Hu'].
  apply Qlt_bool_iff in Hu'. repeat split; assumption.
Qed.

(** An exception of the power is one of the two failures. *)
Lemma power_raises (x c : Q) (e : exn) :
  power fpow x c = Raise e -> power_fails fpow x c e.
Proof.
  unfold power, power_fails.
  destruct (Qeq_bool x 0) eqn:Ex; destruct (Qlt_bool c 0) eqn:Ec;
    cbn [andb]; intros H.
  - left. apply Qeq_bool_iff in Ex. apply Qlt_bool_iff in Ec.
    inversion H. auto.
  - right. split; [|exact H]. intros [_ Hc]. apply Qlt_bool_iff in Hc.
    congruence.
  - right. split; [|exact H]. intros [Hx _]. apply Qeq_bool_iff in Hx.
    congruence.
  - right. split; [|exact H]. intros [Hx _]. apply Qeq_bool_iff in Hx.
    congruence.
Qed.

(** Whatever the table, the rows that the loop gives for a sample are of
    the three kinds. *)
Lemma segments_shapes (qi : bool) (h : hqCurves) (rec : sample) :
  forall os rows,
    segments fpow qi h rec os = Ok rows ->
    Forall (row_of_sample qi rec) rows.
Proof.
  induction os as [|o os IH]; intros rows H; cbn [segments] in H.
  - inversion H. constructor.
  - destruct (s_val rec) as [v|].
    + destruct (matches h o (s_time rec) v) as [m|e]; [|discriminate].
      cbn [bind] in H. destruct m.
      * destruct (index (hq_B h) o) as [b|e]; [|discriminate].
        cbn [bind] in H. destruct (Qle_bool 0 (v - b)).
        -- destruct (curve_value fpow h o v) as [y|e]; [|discriminate].
           cbn [bind] in H. inversion H. constructor; [|constructor].
           right. right. eexists. reflexivity.
        -- inversion H. constructor; [|constructor]. right. now left.
      * destruct (segments fpow qi h rec os) as [rest|e]; [|discriminate].
        cbn [bind] in H.
        destruct (o =? List.length (hq_from h) - 1)%nat; inversion H; subst.
        -- constructor; [right; now left|now apply IH].
        -- now apply IH.
    + inversion H. constructor; [|constructor]. right. now left.
Qed.

Lemma rows_of_sample_shapes (qi : bool) (h : hqCurves) (rec : sample) rows :
  rows_of_sample fpow qi h rec = Ok rows ->
  Forall (row_of_sample qi rec) rows.
Proof.
  unfold rows_of_sample. intros H.
  assert (Hrej : Forall (row_of_sample true rec)
                   [(s_time rec, [nodata; PInt 110])])
    by (constructor; [now left|constructor]).
  destruct qi; [|eapply segments_shapes; eauto].
  destruct (s_val rec) as [v|]; [|inversion H; subst; exact Hrej].
  destruct (Qlt_bool v (-999 # 1)); [inversion H; subst; exact Hrej|].
  eapply segments_shapes; eauto.
Qed.

(** On a rectangular table with at least one segment the loop gives one
    row, unless the power of a segment that applies fails. *)
Lemma segments_single (qi : bool) (h : hqCurves) (rec : sample) :
  rectangular h ->
  forall m k,
    (k + m = List.length (hq_from h))%nat -> (1 <= m)%nat ->
    (exists row, segments fpow qi h rec (seq k m) = Ok [row])
    \/ (exists e, segments fpow qi h rec (seq k m) = Raise e
                  /\ sample_fails fpow h rec e).
Proof.
  intros Hr. induction m as [|m IH]; intros k Hk Hm; [lia|].
  cbn [seq segments].
  destruct (s_val rec) as [v|] eqn:Hv; [|left; eexists; reflexivity].
  assert (Hin : in_table h k) by (apply rectangular_in_table; [exact Hr|lia]).
  destruct (matches_defined h k (s_time rec) v Hin) as (b & Hb).
  rewrite Hb. cbn [bind]. destruct b.
  - pose proof (matches_applies h k (s_time rec) v Hin Hb) as Happ.
    destruct Hin as (Hf & Ht & Hl & Hu & Ha & HB & Hc & Hkk).
    rewrite (index_nth _ _ 0%Q HB). cbn [bind].
    destruct (Qle_bool 0 (v - nth k (hq_B h) 0%Q)) eqn:Hx;
      [|left; eexists; reflexivity].
    apply Qle_bool_iff in Hx.
    unfold curve_value.
    rewrite (index_nth _ _ 0%Q Hkk), (index_nth _ _ 0%Q Ha),
      (index_nth _ _ 0%Q HB), (index_nth _ _ 0%Q Hc).
    cbn [bind].
    destruct (power fpow (v - nth k (hq_B h) 0%Q) (nth k (hq_C h) 0%Q))
      as [p|e] eqn:Hp; cbn [bind].
    + left. eexists. reflexivity.
    + right. exists e. split; [reflexivity|].
      exists v, k. split; [exact Hv|].
      split; [unfold in_table; repeat split; assumption|].
      split; [exact Happ|]. split; [exact Hx|].
      now apply power_raises.
  - destruct m as [|m].
    + cbn [seq segments bind].
      destruct (Nat.eqb_spec k (List.length (hq_from h) - 1)); [|lia].
      left. eexists. reflexivity.
    + destruct (IH (S k) ltac:(lia) ltac:(lia)) as [(row & Hrow)|(e & He & Hf)].
      * rewrite Hrow. cbn [bind].
        destruct (Nat.eqb_spec k (List.length (hq_from h) - 1)); [lia|].
        left. eexists. reflexivity.
      * rewrite He. cbn [bind]. right. exists e. split; [reflexivity|].
        exact Hf.
Qed.

Lemma rows_of_sample_single (qi : bool) (h : hqCurves) (rec : sample) :
  rectangular h -> hq_from h <> [] ->
  (exists row,
     rows_of_sample fpow qi h rec = Ok [row] /\ fst row = s_time rec)
  \/ (exists e, rows_of_sample fpow qi h rec = Raise e
                /\ sample_fails fpow h rec e).
Proof.
  intros Hr Hne.
  assert (Hlen : (1 <= List.length (hq_from h))%nat)
    by (destruct (hq_from h); [congruence|simpl; lia]).
  assert (Hone : (exists row, rows_of_sample fpow qi h rec = Ok [row])
                 \/ (exists e, rows_of_sample fpow qi h rec = Raise e
                               /\ sample_fails fpow h rec e)).
  { unfold rows_of_sample.
    destruct (segments_single qi h rec Hr (List.length (hq_from h)) 0
                ltac:(lia) Hlen) as [(row & Hrow)|(e & He & Hf)].
    - rewrite Hrow. left.
      destruct qi; [|eexists; reflexivity].
      destruct (s_val rec) as [v|]; [|eexists; reflexivity].
      destruct (Qlt_bool v (-999 # 1)); eexists; reflexivity.
    - rewrite He.
      destruct qi; [|right; exists e; split; [reflexivity|exact Hf]].
      destruct (s_val rec) as [v|]; [|left; eexists; reflexivity].
      destruct (Qlt_bool v (-999 # 1)); [left; eexists; reflexivity|].
      right. exists e. split; [reflexivity|exact Hf]. }
  destruct Hone as [(row' & Hrow')|Hfail]; [left|right; exact Hfail].
  exists row'. split; [exact Hrow'|].
  pose proof (rows_of_sample_shapes qi h rec [row'] Hrow') as Hs.
  inversion Hs as [|? ? Hshape _]; subst.
  destruct Hshape as [->|[->|(y & ->)]]; reflexivity.
Qed.

Lemma transform_one_row_each (qi : bool) (h : hqCurves) :
  rectangular h -> hq_from h <> [] ->
  forall data,
    (exists out,
       transform fpow qi h data = Ok out /\ map fst out = map s_time data)
    \/ (exists e rec,
          transform fpow qi h data = Raise e
          /\ In rec data /\ sample_fails fpow h rec e).
Proof.
  intros Hr Hne. induction data as [|rec data IH].
  - left. exists []. split; reflexivity.
  - cbn [transform].
    destruct (rows_of_sample_single qi h rec Hr Hne)
      as [(row & Hrow & Ht)|(e & He & Hf)].
    + rewrite Hrow. cbn [bind].
      destruct IH as [(rest & Hrest & Hmap)|(e & rec' & He & Hin & Hf)].
      * left. exists (row :: rest). rewrite Hrest. cbn [bind app map].
        split; [reflexivity|]. now rewrite Ht, Hmap.
      * right. exists e, rec'. rewrite He. cbn [bind].
        split; [reflexivity|]. split; [now right|exact Hf].
    + right. exists e, rec. rewrite He. cbn [bind].
      split; [reflexivity|]. split; [now left|exact Hf].
Qed.

End Rows.

(** X: one row per sample, or the error of a power.  On a rectangular
    table with at least one segment, with or without quality reporting,
    the transform gives exactly one row for each sample, with the
    timestamp of the sample and in the order of the samples, unless it
    stops with an exception; and the exception is that of the power of a
    segment that applies to a sample of the input with a base [v - B]
    that is not negative: a [ZeroDivisionError] when the base is zero and
    the exponent negative, and else what the operator raises. *)
Theorem one_row_per_sample :
  forall (fpow : Q -> Q -> result Q) (qi : bool) (h : hqCurves)
         (data : list sample),
    rectangular h ->
    hq_from h <> [] ->
    (exists out,
       transform fpow qi h data = Ok out /\ map fst out = map s_time data)
    \/ (exists e rec,
          transform fpow qi h data = Raise e
          /\ In rec data /\ sample_fails fpow h rec e).
Proof.
  intros fpow qi h data Hr Hne. now apply transform_one_row_each.
Qed.

(** X: the whole derivation.  For a file with the columns in the order of
    [header], at least one line, and lines whose validity starts no later
    than it ends, whenever the period of the request can be computed
    [execute] returns one row for each sample of the input, with its
    timestamp and in its order, or stops with the exception of the power
    of a line of the file that applies to a sample. *)
Theorem execute_keeps_every_sample :
  forall (fpow : Q -> Q -> result Q) (hqFile : string)
         (eventTime : option (list (list Z)))
         (p0 p1 : option Z) (segs : list segment) (qi : bool)
         (data : list sample),
    py_min_instants (instants eventTime) = Ok p0 ->
    py_max_instants (instants eventTime) = Ok p1 ->
    segs <> [] ->
    Forall (fun s => seg_from s <= seg_to s) segs ->
    (exists out,
       execute fpow hqFile eventTime (Some (header :: map line_of segs)) qi
         data = Ok out
       /\ map fst out = map s_time data)
    \/ (exists e rec,
          execute fpow hqFile eventTime (Some (header :: map line_of segs)) qi
            data = Raise e
          /\ In rec data /\ sample_fails fpow (table_of segs) rec e).
Proof.
  intros fpow hqFile eventTime p0 p1 segs qi data Hmin Hmax Hne Hwf.
  destruct (period_defined eventTime p0 p1 Hmin Hmax) as (b & e & -> & -> & Hbe).
  unfold execute, setDischargeCurves. rewrite Hmin, Hmax.
  cbn [bind index nth_error tl].
  change (header_positions hqFile header)
    with (Ok (mkPositions 0 1 2 3 4 5 6 7)).
  cbn [bind].
  rewrite (load_window_all b e Hbe segs no_curves Hwf). cbn [bind].
  apply transform_one_row_each.
  - unfold rectangular. cbn. rewrite !length_map. repeat split; reflexivity.
  - cbn. destruct segs; [congruence|discriminate].
Qed.

(** X: the kinds of rows.  Whatever the table, every row that the
    transform returns belongs to a sample of the input and is of one of
    three kinds: the value [-999.9] flagged 110, the value [-999.9]
    flagged 120, or a formatted curve value with the quality code of the
    sample itself.  The value [-999.9] never carries the code of the
    sample. *)
Theorem output_rows_are_of_three_kinds :
  forall (fpow : Q -> Q -> result Q) (qi : bool) (h : hqCurves) (data : list sample)
         (out : list out_row),
    transform fpow qi h data = Ok out ->
    Forall (fun row => exists rec, In rec data /\ row_of_sample qi rec row) out.
Proof.
  intros fpow qi h. induction data as [|rec data IH]; intros out H;
    cbn [transform] in H.
  - inversion H. constructor.
  - destruct (rows_of_sample fpow qi h rec) as [rows|e] eqn:E; [|discriminate].
    cbn [bind] in H.
    destruct (transform fpow qi h data) as [rest|e]; [|discriminate].
    cbn [bind] in H. inversion H; subst out. apply Forall_app. split.
    + eapply Forall_impl; [|exact (rows_of_sample_shapes fpow qi h rec rows E)].
      intros row Hrow. exists rec. split; [now left|exact Hrow].
    + eapply Forall_impl; [|exact (IH rest eq_refl)].
      intros row (rec' & Hin & Hrow). exists rec'. split; [now right|exact Hrow].
Qed.

(** X: a missing value.  Under quality reporting a sample without a value
    gives the row (timestamp, [-999.9], [110]) whatever the table holds;
    without quality reporting it gives the row (timestamp, [-999.9]) as
    soon as the table has one segment. *)
Theorem missing_value_rows :
  forall (fpow : Q -> Q -> result Q) (h : hqCurves) (rec : sample),
    s_val rec = None ->
    rows_of_sample fpow true h rec
    = Ok [(s_time rec, [PFloat (-9999 # 10); PInt 110])]
    /\ (hq_from h <> [] ->
        rows_of_sample fpow false h rec
        = Ok [(s_time rec, [PFloat (-9999 # 10)])]).
Proof.
  intros fpow h rec Hv. unfold rows_of_sample. rewrite Hv.
  split; [reflexivity|]. intros Hne.
  destruct (hq_from h) as [|f l]; [congruence|].
  cbn [List.length seq segments]. now rewrite Hv.
Qed.

Lemma segments_no_match (fpow : Q -> Q -> result Q) (qi : bool) (h : hqCurves)
  (rec : sample) (v : Q) :
  rectangular h ->
  s_val rec = Some v ->
  (forall o, (o < List.length (hq_from h))%nat ->
     ~ segment_matches h o (s_time rec) v) ->
  forall m k,
    (k + m = List.length (hq_from h))%nat -> (1 <= m)%nat ->
    segments fpow qi h rec (seq k m)
    = Ok [emit qi (s_time rec) nodata (PInt 120)].
Proof.
  intros Hr Hv Hno. induction m as [|m IH]; intros k Hk Hm; [lia|].
  cbn [seq segments]. rewrite Hv.
  rewrite (matches_false h k (s_time rec) v);
    [|apply rectangular_in_table; [exact Hr|lia]|apply Hno; lia].
  cbn [bind]. destruct m as [|m].
  - cbn [seq segments bind].
    destruct (Nat.eqb_spec k (List.length (hq_from h) - 1)); [reflexivity|lia].
  - rewrite IH by lia. cbn [bind].
    destruct (Nat.eqb_spec k (List.length (hq_from h) - 1)); [lia|reflexivity].
Qed.

(** X: no segment applies.  On a rectangular table with at least one
    segment, a sample with a present value that reaches the lookup and to
    which no segment applies gives the single row (timestamp, [-999.9])
    with, under quality reporting, the code [120]. *)
Theorem no_segment_applies :
  forall (fpow : Q -> Q -> result Q) (qi : bool) (h : hqCurves) (rec : sample)
         (v : Q),
    rectangular h ->
    hq_from h <> [] ->
    s_val rec = Some v ->
    (qi = true -> ~ (v < -999 # 1)%Q) ->
    (forall o, (o < List.length (hq_from h))%nat ->
       ~ segment_matches h o (s_time rec) v) ->
    rows_of_sample fpow qi h rec
    = Ok [emit qi (s_time rec) (PFloat (-9999 # 10)) (PInt 120)].
Proof.
  intros fpow qi h rec v Hr Hne Hv Hgate Hno.
  assert (Hlen : (1 <= List.length (hq_from h))%nat)
    by (destruct (hq_from h); [congruence|simpl; lia]).
  pose proof (segments_no_match fpow qi h rec v Hr Hv Hno
                (List.length (hq_from h)) 0 ltac:(lia) Hlen) as Hlookup.
  unfold rows_of_sample. destruct qi; [|exact Hlookup].
  rewrite Hv, Qlt_bool_false; [exact Hlookup|auto].
Qed.

Lemma period_0_100 :
  py_min_instants (instants (Some [[0; 100]])) = Ok (Some 0)
  /\ py_max_instants (instants (Some [[0; 100]])) = Ok (Some 100).
Proof. split; reflexivity. Qed.

Lemma missing_header_column_witness :
  py_min_instants (instants (Some [[0; 100]])) = Ok (Some 0)
  /\ py_max_instants (instants (Some [[0; 100]])) = Ok (Some 100)
  /\ In "K" required_columns
  /\ ~ In (CText "K") [CText "from"; CText "to"; CText "low_val";
                       CText "up_val"; CText "A"; CText "B"; CText "C"]
  /\ setDischargeCurves hq_path (Some [[0; 100]])
       (Some [[CText "from"; CText "to"; CText "low_val"; CText "up_val";
               CText "A"; CText "B"; CText "C"];
              line_of one_segment])
     = Raise (PyExceptionFmt
                ("setDischargeCurves: FILE %s ,%s error in header."
                 ++ String "010" " %s")
                [AText "/services/demo/Q/Q.rcv";
                 ACells [CText "from"; CText "to"; CText "low_val";
                         CText "up_val"; CText "A"; CText "B"; CText "C"]]
                ValueError).
Proof.
  destruct period_0_100 as [H1 H2].
  assert (H3 : In "K" required_columns) by (simpl; tauto).
  assert (H4 : ~ In (CText "K") [CText "from"; CText "to"; CText "low_val";
                                 CText "up_val"; CText "A"; CText "B";
                                 CText "C"]).
  { simpl. intros [H|[H|[H|[H|[H|[H|[H|[]]]]]]]]; discriminate H. }
  split; [exact H1|]. split; [exact H2|]. split; [exact H3|].
  split; [exact H4|].
  exact (missing_header_column hq_path (Some [[0; 100]]) (Some 0) (Some 100) _
           [line_of one_segment] "K" H1 H2 H3 H4).
Defined.

Lemma loaded_table_is_rectangular_witness :
  setDischargeCurves hq_path (Some [[0; 100]])
    (Some [header; line_of one_segment])
  = Ok (table_of [one_segment])
  /\ rectangular (table_of [one_segment]).
Proof.
  assert (H : setDischargeCurves hq_path (Some [[0; 100]])
                (Some [header; line_of one_segment])
              = Ok (table_of [one_segment])) by reflexivity.
  split; [exact H|].
  exact (loaded_table_is_rectangular _ _ _ _ H).
Defined.

Lemma window_takes_every_line_witness :
  py_min_instants (instants (Some [[0; 100]])) = Ok (Some 0)
  /\ py_max_instants (instants (Some [[0; 100]])) = Ok (Some 100)
  /\ Forall (fun s => seg_from s <= seg_to s)
       [mkSegment 200 300 0 10 2 1 1 0]
  /\ setDischargeCurves hq_path (Some [[0; 100]])
       (Some (header :: map line_of [mkSegment 200 300 0 10 2 1 1 0]))
     = Ok (table_of [mkSegment 200 300 0 10 2 1 1 0]).
Proof.
  destruct period_0_100 as [H1 H2].
  assert (H3 : Forall (fun s => seg_from s <= seg_to s)
                 [mkSegment 200 300 0 10 2 1 1 0])
    by (repeat constructor; simpl; lia).
  split; [exact H1|]. split; [exact H2|]. split; [exact H3|].
  exact (window_takes_every_line hq_path (Some [[0; 100]]) (Some 0) (Some 100)
           [mkSegment 200 300 0 10 2 1 1 0] H1 H2 H3).
Defined.

Lemma one_segment_rectangular : rectangular (table_of [one_segment]).
Proof. unfold rectangular. cbn. repeat split; reflexivity. Qed.

Lemma inverse_table_rectangular : rectangular inverse_table.
Proof. unfold rectangular. cbn. repeat split; reflexivity. Qed.

Lemma one_row_per_sample_witness :
  rectangular (table_of [one_segment])
  /\ hq_from (table_of [one_segment]) <> []
  /\ transform first_power true (table_of [one_segment])
       [mkSample 5 (Some 5%Q) (PInt 100); mkSample 6 None (PInt 100);
        mkSample 300 (Some 5%Q) (PInt 100)]
     = Ok [(5, [PFormat4 (0 + 2 * (5 - 1))%Q; PInt 100]);
           (6, [PFloat (-9999 # 10); PInt 110]);
           (300, [PFloat (-9999 # 10); PInt 120])]
  /\ transform first_power true inverse_table
       [mkSample 5 (Some 5%Q) (PInt 100)]
     = Raise ZeroDivisionError
  /\ ((exists out,
         transform first_power true inverse_table
           [mkSample 5 (Some 5%Q) (PInt 100)] = Ok out
         /\ map fst out = map s_time [mkSample 5 (Some 5%Q) (PInt 100)])
      \/ (exists e rec,
            transform first_power true inverse_table
              [mkSample 5 (Some 5%Q) (PInt 100)] = Raise e
            /\ In rec [mkSample 5 (Some 5%Q) (PInt 100)]
            /\ sample_fails first_power inverse_table rec e)).
Proof.
  pose proof one_segment_rectangular as H1.
  assert (H2 : hq_from (table_of [one_segment]) <> []) by discriminate.
  assert (H3 : hq_from inverse_table <> []) by discriminate.
  split; [exact H1|]. split; [exact H2|]. split; [reflexivity|].
  split; [reflexivity|].
  exact (one_row_per_sample first_power true inverse_table
           [mkSample 5 (Some 5%Q) (PInt 100)] inverse_table_rectangular H3).
Defined.

Lemma execute_keeps_every_sample_witness :
  py_min_instants (instants (Some [[0; 100]])) = Ok (Some 0)
  /\ py_max_instants (instants (Some [[0; 100]])) = Ok (Some 100)
  /\ Forall (fun s => seg_from s <= seg_to s) [one_segment]
  /\ execute first_power hq_path (Some [[0; 100]])
       (Some (header :: map line_of [one_segment])) false
       [mkSample 5 (Some 5%Q) (PInt 100); mkSample 6 None (PInt 100)]
     = Ok [(5, [PFormat4 (0 + 2 * (5 - 1))%Q]); (6, [PFloat (-9999 # 10)])]
  /\ ((exists out,
         execute first_power hq_path (Some [[0; 100]])
           (Some (header :: map line_of [one_segment])) false
           [mkSample 5 (Some 5%Q) (PInt 100); mkSample 6 None (PInt 100)]
         = Ok out
         /\ map fst out
            = map s_time
                [mkSample 5 (Some 5%Q) (PInt 100); mkSample 6 None (PInt 100)])
      \/ (exists e rec,
            execute first_power hq_path (Some [[0; 100]])
              (Some (header :: map line_of [one_segment])) false
              [mkSample 5 (Some 5%Q) (PInt 100); mkSample 6 None (PInt 100)]
            = Raise e
            /\ In rec [mkSample 5 (Some 5%Q) (PInt 100);
                       mkSample 6 None (PInt 100)]
            /\ sample_fails first_power (table_of [one_segment]) rec e)).
Proof.
  destruct period_0_100 as [H1 H2].
  assert (H3 : [one_segment] <> []) by discriminate.
  assert (H4 : Forall (fun s => seg_from s <= seg_to s) [one_segment])
    by (repeat constructor; simpl; lia).
  split; [exact H1|]. split; [exact H2|]. split; [exact H4|].
  split; [reflexivity|].
  exact (execute_keeps_every_sample first_power hq_path (Some [[0; 100]])
           (Some 0) (Some 100) [one_segment] false
           [mkSample 5 (Some 5%Q) (PInt 100); mkSample 6 None (PInt 100)]
           H1 H2 H3 H4).
Defined.

Lemma output_rows_are_of_three_kinds_witness :
  transform first_power true (table_of [one_segment])
    [mkSample 5 (Some 5%Q) (PInt 100); mkSample 6 None (PInt 100)]
  = Ok [(5, [PFormat4 (0 + 2 * (5 - 1))%Q; PInt 100]);
        (6, [PFloat (-9999 # 10); PInt 110])]
  /\ Forall (fun row =>
               exists rec,
                 In rec [mkSample 5 (Some 5%Q) (PInt 100);
                         mkSample 6 None (PInt 100)]
                 /\ row_of_sample true rec row)
       [(5, [PFormat4 (0 + 2 * (5 - 1))%Q; PInt 100]);
        (6, [PFloat (-9999 # 10); PInt 110])].
Proof.
  assert (H : transform first_power true (table_of [one_segment])
                [mkSample 5 (Some 5%Q) (PInt 100); mkSample 6 None (PInt 100)]
              = Ok [(5, [PFormat4 (0 + 2 * (5 - 1))%Q; PInt 100]);
                    (6, [PFloat (-9999 # 10); PInt 110])])
    by reflexivity.
  split; [exact H|].
  exact (output_rows_are_of_three_kinds first_power true _ _ _ H).
Defined.

Lemma missing_value_rows_witness :
  s_val (mkSample 6 None (PInt 100)) = None
  /\ hq_from (table_of [one_segment]) <> []
  /\ rows_of_sample first_power false (table_of [one_segment])
       (mkSample 6 None (PInt 100))
     = Ok [(6, [PFloat (-9999 # 10)])].
Proof.
  assert (H1 : s_val (mkSample 6 None (PInt 100)) = None) by reflexivity.
  assert (H2 : hq_from (table_of [one_segment]) <> []) by discriminate.
  split; [exact H1|]. split; [exact H2|].
  exact (proj2 (missing_value_rows first_power (table_of [one_segment])
                  (mkSample 6 None (PInt 100)) H1) H2).
Defined.

Lemma no_segment_applies_witness :
  rectangular (table_of [one_segment])
  /\ s_val (mkSample 300 (Some 5%Q) (PInt 100)) = Some 5%Q
  /\ (forall o, (o < List.length (hq_from (table_of [one_segment])))%nat ->
        ~ segment_matches (table_of [one_segment]) o 300 5%Q)
  /\ rows_of_sample first_power true (table_of [one_segment])
       (mkSample 300 (Some 5%Q) (PInt 100))
     = Ok [(300, [PFloat (-9999 # 10); PInt 120])].
Proof.
  pose proof one_segment_rectangular as H1.
  assert (H2 : hq_from (table_of [one_segment]) <> []) by discriminate.
  assert (H3 : s_val (mkSample 300 (Some 5%Q) (PInt 100)) = Some 5%Q)
    by reflexivity.
  assert (H4 : true = true -> ~ (5 < -999 # 1)%Q)
    by (intros _ H; vm_compute in H; discriminate H).
  assert (H5 : forall o,
             (o < List.length (hq_from (table_of [one_segment])))%nat ->
             ~ segment_matches (table_of [one_segment]) o 300 5%Q).
  { intros o Ho. simpl in Ho. assert (o = 0)%nat as -> by lia.
    unfold segment_matches. simpl. lia. }
  split; [exact H1|]. split; [exact H3|]. split; [exact H5|].
  exact (no_segment_applies first_power true (table_of [one_segment])
           (mkSample 300 (Some 5%Q) (PInt 100)) 5%Q H1 H2 H3 H4 H5).
Defined.

End HQMore.

(** * Dependencies of a derivation: further properties *)

Module GetDataMore.
Import Procedures ProceduresSpec GetData.

Lemma lookup_dict_set_same (name : string) (op : list string) (d : dict) :
  lookup name (dict_set name op d) = Ok op.
Proof.
  induction d as [|[k v] d IH]; cbn [dict_set lookup].
  - now rewrite String.eqb_refl.
  - destruct (String.eqb_spec k name) as [->|Hne]; cbn [lookup].
    + now rewrite String.eqb_refl.
    + destruct (String.eqb_spec k name); [contradiction|exact IH].
Qed.

Lemma lookup_dict_set_other (name other : string) (op : list string) (d : dict) :
  other <> name -> lookup other (dict_set name op d) = lookup other d.
Proof.
  intros Hne. induction d as [|[k v] d IH]; cbn [dict_set lookup].
  - destruct (String.eqb_spec name other); [congruence|reflexivity].
  - destruct (String.eqb_spec k name) as [->|Hk]; cbn [lookup].
    + destruct (String.eqb_spec name other); [congruence|reflexivity].
    + destruct (String.eqb_spec k other); [reflexivity|exact IH].
Qed.

Lemma keys_dict_set_same (name : string) (op : list string) (d : dict) :
  existsb (String.eqb name) (keys (dict_set name op d)) = true.
Proof.
  unfold keys. induction d as [|[k v] d IH]; cbn [dict_set map fst existsb].
  - now rewrite String.eqb_refl.
  - destruct (String.eqb_spec k name) as [->|Hk]; cbn [map fst existsb].
    + now rewrite String.eqb_refl.
    + rewrite IH. apply orb_true_r.
Qed.

Lemma keys_dict_set_other (name other : string) (op : list string) (d : dict) :
  other <> name ->
  existsb (String.eqb other) (keys (dict_set name op d))
  = existsb (String.eqb other) (keys d).
Proof.
  intros Hne. unfold keys.
  induction d as [|[k v] d IH]; cbn [dict_set map fst existsb].
  - destruct (String.eqb_spec other name); [congruence|reflexivity].
  - destruct (String.eqb_spec k name) as [->|Hk]; cbn [map fst existsb].
    + destruct (String.eqb_spec other name); [congruence|reflexivity].
    + now rewrite IH.
Qed.

Lemma nth_error_set_nth {A : Type} (l : list A) (i : nat) (a : A) :
  (i < List.length l)%nat -> nth_error (set_nth l i a) i = Some a.
Proof.
  revert i; induction l as [|x l IH]; intros i Hi; [simpl in Hi; lia|].
  destruct i as [|i]; [reflexivity|]. cbn [set_nth nth_error].
  apply IH. simpl in Hi. lia.
Qed.

Lemma nth_error_set_nth_other {A : Type} (l : list A) (i j : nat) (a : A) :
  i <> j -> nth_error (set_nth l i a) j = nth_error l j.
Proof.
  revert i j; induction l as [|x l IH]; intros i j Hne.
  - now destruct i.
  - destruct i as [|i], j as [|j]; cbn [set_nth nth_error];
      try reflexivity; try congruence.
    apply IH. congruence.
Qed.

(** The map read through [self] after [addProcedure]. *)
Lemma procedures_addProcedure_self (st : store) (self : nat) name op :
  procedures (addProcedure st self name op) self
  = dict_set name op (procedures st self).
Proof.
  unfold procedures, addProcedure.
  destruct (own st self) as [d|] eqn:E.
  - unfold own in *. cbn [instances].
    destruct (nth_error (instances st) self) as [o|] eqn:En; [|discriminate].
    rewrite nth_error_set_nth; [reflexivity|].
    apply nth_error_Some. congruence.
  - unfold own in *. cbn [instances class_procedures]. now rewrite E.
Qed.

(** X: record, then fetch.  After [addProcedure(name, observedProperty)]
    on a derivation, [getData(name)] passes its check and asks the
    dependency for exactly the recorded observed properties; what
    [getData] does for every other name is unchanged. *)
Theorem recorded_dependency_is_fetched :
  forall (st : store) (self : nat) (name : string) (op : list string),
    target (procedures (addProcedure st self name op) self) (Some name)
    = Ok (name, op)
    /\ forall other, other <> name ->
         target (procedures (addProcedure st self name op) self) (Some other)
         = target (procedures st self) (Some other).
Proof.
  intros st self name op. rewrite procedures_addProcedure_self. split.
  - unfold target. rewrite keys_dict_set_same. cbn [bind].
    now rewrite lookup_dict_set_same.
  - intros other Hne. unfold target.
    rewrite (keys_dict_set_other name other op _ Hne).
    destruct (existsb (String.eqb other) (keys (procedures st self)));
      [|reflexivity].
    cbn [bind]. now rewrite (lookup_dict_set_other name other op _ Hne).
Qed.

Lemma recorded_dependency_is_fetched_witness :
  "B" <> "A"
  /\ target (procedures (addProcedure two_instances 0 "A" ["urn:stage"]) 0)
       (Some "A")
     = Ok ("A", ["urn:stage"])
  /\ target (procedures (addProcedure two_instances 0 "A" ["urn:stage"]) 0)
       (Some "B")
     = target (procedures two_instances 0) (Some "B").
Proof.
  assert (H : "B" <> "A") by discriminate.
  split; [exact H|].
  destruct (recorded_dependency_is_fetched two_instances 0 "A" ["urn:stage"])
    as [H1 H2].
  split; [exact H1|exact (H2 "B" H)].
Defined.

(** X: the default dependency.  [getData()] without a name takes the
    dependency recorded first, and recording further dependencies, or
    recording again one that is not the first, does not change which one
    it takes nor the observed properties it asks of it. *)
Theorem default_dependency_is_the_first :
  forall (d : dict) (k name : string) (v op : list string),
    target d None = Ok (k, v) ->
    name <> k ->
    target (dict_set name op d) None = Ok (k, v).
Proof.
  intros d k name v op H Hne. unfold target in *.
  destruct d as [|[k0 v0] d]; [discriminate|].
  cbn [List.length Nat.eqb keys map fst index nth_error bind lookup] in H.
  rewrite String.eqb_refl in H. inversion H; subst k0 v0.
  cbn [dict_set]. destruct (String.eqb_spec k name); [congruence|].
  cbn [List.length Nat.eqb keys map fst index nth_error bind lookup].
  now rewrite String.eqb_refl.
Qed.

Lemma default_dependency_is_the_first_witness :
  target [("A", ["urn:stage"])] None = Ok ("A", ["urn:stage"])
  /\ "B" <> "A"
  /\ target (dict_set "B" ["urn:flow"] [("A", ["urn:stage"])]) None
     = Ok ("A", ["urn:stage"]).
Proof.
  assert (H1 : target [("A", ["urn:stage"])] None = Ok ("A", ["urn:stage"]))
    by reflexivity.
  assert (H2 : "B" <> "A") by discriminate.
  split; [exact H1|]. split; [exact H2|].
  exact (default_dependency_is_the_first _ "A" "B" _ ["urn:flow"] H1 H2).
Defined.

(** X: a map of its own.  Once a derivation has bound its own map (as the
    three methods that read the members of an offering do, lines 243, 419
    and 459), what it records goes to that map only: the map of the class
    and the maps read through the other instances do not change. *)
Theorem rebound_map_is_private :
  forall (st : store) (a : nat) (name : string) (op : list string),
    (a < List.length (instances st))%nat ->
    procedures (addProcedure (rebind st a) a name op) a = [(name, op)]
    /\ class_procedures (addProcedure (rebind st a) a name op)
       = class_procedures st
    /\ forall b, b <> a ->
         procedures (addProcedure (rebind st a) a name op) b
         = procedures st b.
Proof.
  intros st a name op Ha.
  assert (Hown : own (rebind st a) a = Some []).
  { unfold own, rebind. cbn [instances]. now rewrite nth_error_set_nth. }
  split; [|split].
  - rewrite procedures_addProcedure_self. unfold procedures.
    now rewrite Hown.
  - unfold addProcedure. now rewrite Hown.
  - intros b Hb. unfold procedures, addProcedure. rewrite Hown.
    unfold own, rebind. cbn [instances class_procedures].
    now rewrite !nth_error_set_nth_other by congruence.
Qed.

Lemma rebound_map_is_private_witness :
  (0 < List.length (instances two_instances))%nat
  /\ procedures (addProcedure (rebind two_instances 0) 0 "A" ["urn:stage"]) 0
     = [("A", ["urn:stage"])]
  /\ procedures (addProcedure (rebind two_instances 0) 0 "A" ["urn:stage"]) 1
     = procedures two_instances 1.
Proof.
  assert (H : (0 < List.length (instances two_instances))%nat)
    by (simpl; lia).
  split; [exact H|].
  destruct (rebound_map_is_private two_instances 0 "A" ["urn:stage"] H)
    as (H1 & _ & H3).
  split; [exact H1|]. apply H3. discriminate.
Defined.

End GetDataMore.

(** * Profile composition: further properties *)

Module ProfileMore.
Import Profile ProfileSpec ProfileProofs ProfileExamples.

Lemma gather_empty (qi : bool) (coords_z : Q) (procs_info : list member) :
  Forall (fun m => m_data m = []) procs_info ->
  gather qi coords_z procs_info = [].
Proof.
  unfold gather. induction 1 as [|m l Hm _ IH]; [reflexivity|].
  cbn [flat_map]. now rewrite Hm, IH.
Qed.

(** X: nothing to compose.  When no member returns a row, the composition
    does not return an empty series: it stops with the [IndexError] of
    [data[0]] at line 515. *)
Theorem empty_composition_is_an_index_error :
  forall (qi : bool) (coords_z : Q) (n_obs : nat) (procs_info : list member),
    Forall (fun m => m_data m = []) procs_info ->
    execute qi coords_z n_obs procs_info = Raise IndexError.
Proof.
  intros qi coords_z n_obs procs_info H. unfold execute.
  rewrite (gather_empty qi coords_z procs_info H). reflexivity.
Qed.

Lemma empty_composition_is_an_index_error_witness :
  Forall (fun m => m_data m = []) [mkMember "P_UPPER" 1 []]
  /\ execute true 0 4 [mkMember "P_UPPER" 1 []] = Raise IndexError.
Proof.
  assert (H : Forall (fun m => m_data m = []) [mkMember "P_UPPER" 1 []])
    by (repeat constructor).
  split; [exact H|].
  exact (empty_composition_is_an_index_error true 0 4 _ H).
Defined.

Lemma stable_sort_ties {A : Type} (leb : A -> A -> bool) (l : list A) :
  (forall a b, In a l -> In b l -> leb a b = true) ->
  stable_sort leb l = l.
Proof.
  induction l as [|x l IH]; intros H; [reflexivity|].
  cbn [stable_sort]. rewrite IH by (intros a b Ha Hb; apply H; now right).
  destruct l as [|y l]; [reflexivity|]. cbn [insert_sorted].
  rewrite H; [reflexivity|now left|right; now left].
Qed.

Lemma gather_two_cells (coords_z : Q) (procs_info : list member) :
  Forall (fun m => Forall (fun r => List.length (cells r) = 2%nat) (m_data m))
    procs_info ->
  Forall (fun row => List.length (cells row) = 4%nat /\ key 4 row = 100%Q)
    (gather true coords_z procs_info).
Proof.
  unfold gather. induction 1 as [|m l Hm _ IH]; [constructor|].
  cbn [flat_map]. apply Forall_app. split; [|exact IH].
  apply Forall_forall. intros row Hrow.
  apply in_map_iff in Hrow as (r & <- & Hr).
  pose proof (proj1 (Forall_forall _ _) Hm r Hr) as Hlen. cbn beta in Hlen.
  unfold with_depth, key. cbn [cells].
  destruct (cells r) as [|c1 [|c2 [|c3 tl]]]; try discriminate.
  split; reflexivity.
Qed.

(** X: one observed property under quality reporting.  When every member
    row has two cells (a value and its quality code), the column read by
    the second sort is the constant 100 appended to every row, so that
    sort changes nothing: the composition returns the rows in timestamp
    order, rows of one timestamp in the order of the members. *)
Theorem single_property_profile_is_in_time_order :
  forall (coords_z : Q) (procs_info : list member),
    Forall (fun m => Forall (fun r => List.length (cells r) = 2%nat) (m_data m))
      procs_info ->
    gather true coords_z procs_info <> [] ->
    execute true coords_z 4 procs_info
    = Ok (sort_by_time (gather true coords_z procs_info))
    /\ StronglySorted (fun a b => time a <= time b)
         (sort_by_time (gather true coords_z procs_info)).
Proof.
  intros coords_z procs_info Htwo Hne.
  split; [|apply sort_by_time_sorted].
  set (data := gather true coords_z procs_info) in *.
  assert (Hperm : Permutation data (sort_by_time data))
    by apply stable_sort_perm.
  assert (Hall : Forall (fun row => List.length (cells row) = 4%nat
                                    /\ key 4 row = 100%Q)
                   (sort_by_time data)).
  { apply (Permutation_Forall Hperm). now apply gather_two_cells. }
  unfold execute. fold data. unfold sort_by_column_desc.
  assert (Hwide : forallb (fun r => (4 - 1 <? List.length (cells r))%nat)
                    (sort_by_time data) = true).
  { apply forallb_forall. intros r Hr.
    destruct (proj1 (Forall_forall _ _) Hall r Hr) as [Hl _].
    rewrite Hl. reflexivity. }
  rewrite Hwide. cbn [bind].
  rewrite stable_sort_ties.
  2:{ intros a b Ha Hb.
      destruct (proj1 (Forall_forall _ _) Hall a Ha) as [_ Hka].
      destruct (proj1 (Forall_forall _ _) Hall b Hb) as [_ Hkb].
      rewrite Hka, Hkb. reflexivity. }
  destruct (sort_by_time data) as [|first rest] eqn:E.
  - apply Permutation_sym, Permutation_nil in Hperm. contradiction.
  - cbn [index nth_error bind].
    inversion Hall as [|? ? [Hl _] _]; subst. rewrite Hl. reflexivity.
Qed.

Lemma single_property_profile_is_in_time_order_witness :
  Forall (fun m => Forall (fun r => List.length (cells r) = 2%nat) (m_data m))
    quality_members
  /\ gather true 0 quality_members <> []
  /\ execute true 0 4 quality_members
     = Ok (sort_by_time (gather true 0 quality_members))
  /\ map time (sort_by_time (gather true 0 quality_members)) = [1; 2; 2; 4].
Proof.
  assert (H1 : Forall (fun m => Forall (fun r => List.length (cells r) = 2%nat)
                                  (m_data m)) quality_members)
    by (repeat constructor).
  assert (H2 : gather true 0 quality_members <> []) by discriminate.
  split; [exact H1|]. split; [exact H2|].
  split;
    [exact (proj1 (single_property_profile_is_in_time_order 0 quality_members
                     H1 H2))
    |reflexivity].
Defined.

End ProfileMore.

(** * The observed properties and the series of an observation *)

Module ObservationMore.
Import Observation ObservationSpec StringFacts.

Lemma quality_name_recognised (s : string) :
  Aggregator.is_quality_index (s ++ ":qualityIndex") = true.
Proof.
  unfold Aggregator.is_quality_index, last_segment.
  change (s ++ ":qualityIndex")%string
    with (s ++ String ":"%char "qualityIndex")%string.
  rewrite last_split_on_append. reflexivity.
Qed.

Lemma fold_add_property (qi : bool) (rows : list obspr_row) : forall p,
  observedProperty (fold_left (add_property qi) rows p)
  = observedProperty p
    ++ flat_map (fun r => if qi
                          then [def_opr r; (def_opr r ++ ":qualityIndex")%string]
                          else [def_opr r]) rows
  /\ List.length (uom (fold_left (add_property qi) rows p))
     = (List.length (uom p)
        + (if qi then 2 else 1) * List.length rows)%nat
  /\ List.length (observedPropertyName (fold_left (add_property qi) rows p))
     = (List.length (observedPropertyName p)
        + (if qi then 2 else 1) * List.length rows)%nat
  /\ List.length (observedPropertyId (fold_left (add_property qi) rows p))
     = (List.length (observedPropertyId p)
        + (if qi then 2 else 1) * List.length rows)%nat
  /\ List.length (opr_urn (fold_left (add_property qi) rows p))
     = (List.length (opr_urn p)
        + (if qi then 2 else 1) * List.length rows)%nat.
Proof.
  induction rows as [|r rows IH]; intros p; cbn [fold_left flat_map].
  - rewrite app_nil_r. cbn [List.length]. repeat split; lia.
  - destruct (IH (add_property qi p r)) as (H1 & H2 & H3 & H4 & H5).
    rewrite H1, H2, H3, H4, H5. unfold add_property.
    destruct qi;
      cbn [observedProperty uom observedPropertyName observedPropertyId
           opr_urn];
      rewrite ?length_app; cbn [List.length];
      rewrite <- ?app_assoc; cbn [app]; repeat split; lia.
Qed.

(** X: the columns of an observation.  Under quality reporting [setData]
    lists, for each observed property in order, its definition and then
    its definition followed by [:qualityIndex]; each of these second
    names is one that [applyFunction] takes for a quality column; and the
    five lists filled side by side all have two entries per observed
    property.  Without quality reporting the list is that of the
    definitions. *)
Theorem quality_columns_are_interleaved :
  forall (obspr_res : list obspr_row),
    observedProperty (set_properties true obspr_res)
    = flat_map (fun r => [def_opr r; (def_opr r ++ ":qualityIndex")%string])
        obspr_res
    /\ Forall (fun r =>
                 Aggregator.is_quality_index (def_opr r ++ ":qualityIndex")
                 = true)
         obspr_res
    /\ List.length (uom (set_properties true obspr_res))
       = (2 * List.length obspr_res)%nat
    /\ List.length (observedPropertyName (set_properties true obspr_res))
       = (2 * List.length obspr_res)%nat
    /\ List.length (observedPropertyId (set_properties true obspr_res))
       = (2 * List.length obspr_res)%nat
    /\ List.length (opr_urn (set_properties true obspr_res))
       = (2 * List.length obspr_res)%nat
    /\ observedProperty (set_properties false obspr_res)
       = map def_opr obspr_res.
Proof.
  intros obspr_res. unfold set_properties.
  destruct (fold_add_property true obspr_res no_properties)
    as (H1 & H2 & H3 & H4 & H5).
  destruct (fold_add_property false obspr_res no_properties) as (H6 & _).
  cbn [no_properties observedProperty uom observedPropertyName
       observedPropertyId opr_urn List.length app] in *.
  split; [exact H1|]. split.
  { apply Forall_forall. intros r _. apply quality_name_recognised. }
  split; [lia|]. split; [lia|]. split; [lia|]. split; [lia|].
  rewrite H6. clear. induction obspr_res as [|r l IH]; [reflexivity|].
  cbn [flat_map map app]. now rewrite IH.
Qed.




End ObservationMore.
